(** * minato: the cache catalog ([minato/cache.py])

    A shallow embedding of [CachedFile] and [Cache] and of the parts of the
    Python runtime they lean on (exceptions, the [with] statement,
    [contextlib.contextmanager], [sqlite3], [pathlib], [uuid], [os.remove]),
    followed by the properties of the catalog.

    Conventions of the model.
    - A method of [Cache] is a state transformer that returns an outcome
      (a value or a raised exception) together with the state it leaves
      behind; a raise never undoes the writes made before it.
    - The table [cached_files] is the list of its rows in storage order.
      A connection reads and writes its own copy; [commit] copies it back
      into the database file.
    - Timestamps are seconds on the local clock, the number that SQLite's
      [strftime('%s', ...)] gives for the stored text; the text form and
      [datetime.fromisoformat] are not modelled.
    - Paths are the strings [str(Path)] gives.
    - Integers are unbounded; the 64-bit range of SQLite integers is not
      modelled. *)

From Stdlib Require Import ZArith List String Ascii Bool Lia.
Import ListNotations.
Local Open Scope string_scope.
Local Open Scope list_scope.
Local Open Scope Z_scope.

(* ================================================================== *)
(** ** Python exceptions and outcomes *)

Inductive exn : Type :=
| RuntimeError (msg : string)
| AssertionError
| AttributeError
| CacheNotFoundError (msg : string)
| ConfigurationError (msg : string)
| IntegrityError (msg : string)      (* sqlite3.IntegrityError *)
| OperationalError (msg : string)    (* sqlite3.OperationalError *)
| InterfaceError (msg : string)      (* sqlite3.InterfaceError *)
| FileNotFoundError (path : string).

Inductive outcome (A : Type) : Type :=
| Return (a : A)
| Raise (e : exn).
Arguments Return {A} a.
Arguments Raise {A} e.

(** The usage error of [_check_connection] is a [RuntimeError]; the domain
    errors are the exceptions of [minato.exceptions]. *)
Definition is_usage_error (e : exn) : bool :=
  match e with RuntimeError _ => true | _ => false end.

Definition is_domain_error (e : exn) : bool :=
  match e with
  | CacheNotFoundError _ | ConfigurationError _ => true
  | _ => false
  end.

(* ================================================================== *)
(** ** pathlib *)

Module Path.

Definition is_absolute (p : string) : bool :=
  match p with
  | String "/" _ => true
  | _ => false
  end.

(** [d / n] *)
Definition truediv (d n : string) : string :=
  if is_absolute n then n
  else if String.eqb d "." then n
  else if String.eqb d "/" then ("/" ++ n)%string
  else (d ++ "/" ++ n)%string.

(** [p.absolute()] in working directory [cwd] *)
Definition absolute (cwd p : string) : string :=
  if is_absolute p then p else truediv cwd p.

End Path.

(* ================================================================== *)
(** ** uuid *)

Module uuid.

(** [UUID(bytes=b, version=4).int], for [b] read as a big-endian integer *)
Definition UUID_v4 (int : Z) : Z :=
  let int := Z.land int (Z.lnot (Z.shiftl 0xc000 48)) in
  let int := Z.lor int (Z.shiftl 0x8000 48) in
  let int := Z.land int (Z.lnot (Z.shiftl 0xf000 64)) in
  Z.lor int (Z.shiftl 4 76).

Definition hexdigit (d : Z) : ascii :=
  match d with
  | 0 => "0" | 1 => "1" | 2 => "2" | 3 => "3" | 4 => "4" | 5 => "5"
  | 6 => "6" | 7 => "7" | 8 => "8" | 9 => "9" | 10 => "a" | 11 => "b"
  | 12 => "c" | 13 => "d" | 14 => "e" | _ => "f"
  end%char.

(** the [n] low hexadecimal digits of [v], most significant first, put
    in front of [acc] *)
Fixpoint hex_digits (n : nat) (v : Z) (acc : string) : string :=
  match n with
  | O => acc
  | S k => hex_digits k (v / 16) (String (hexdigit (v mod 16)) acc)
  end.

(** ['%032x' % int], for [0 <= int < 2^128] *)
Definition hex (int : Z) : string := hex_digits 32 int "".

End uuid.

(* ================================================================== *)
(** ** The table [cached_files] *)

Record Row : Type := mkRow {
  row_id : Z;
  row_url : string;
  row_local_path : string;
  row_created_at : Z;
  row_updated_at : Z
}.

Module sqlite3.

Record Connection : Type := { table : list Row }.
Record Cursor : Type := { lastrowid : option Z }.

(** [id INTEGER PRIMARY KEY]: a row inserted without an id gets one more
    than the largest id in the table, and 1 in an empty table. *)
Definition next_rowid (t : list Row) : Z :=
  match map row_id t with
  | [] => 1
  | i :: l => 1 + fold_left Z.max l i
  end.

(** [INSERT INTO cached_files (url, local_path) VALUES (?, ?)] at local
    time [now]; [url] is [UNIQUE]. *)
Definition insert (url local_path : string) (now : Z) (t : list Row)
  : outcome (list Row * Z) :=
  if existsb (fun r => String.eqb (row_url r) url) t
  then Raise (IntegrityError "UNIQUE constraint failed: cached_files.url")
  else
    let i := next_rowid t in
    Return (t ++ [mkRow i url local_path now now], i).

(** [SELECT * FROM cached_files WHERE id = ?] *)
Definition select_by_id (i : Z) (t : list Row) : list Row :=
  filter (fun r => row_id r =? i) t.

(** [SELECT * FROM cached_files WHERE url = ?] *)
Definition select_by_url (u : string) (t : list Row) : list Row :=
  filter (fun r => String.eqb (row_url r) u) t.

(** the [WHERE] clause of the statement in [Cache.clean] *)
Definition expired (now expire_seconds : Z) (r : Row) : bool :=
  now - row_updated_at r >? expire_seconds.

Definition select_expired (now expire_seconds : Z) (t : list Row) : list Row :=
  filter (expired now expire_seconds) t.

(** [DELETE FROM cached_files WHERE id = ?] *)
Definition delete_by_id (i : Z) (t : list Row) : list Row :=
  filter (fun r => negb (row_id r =? i)) t.

(** *** The statement of [Cache.update]

    SQLite prepares a statement before it runs it, and a statement that
    is not in the grammar raises [OperationalError].  The recogniser
    below covers the [UPDATE] statements that the catalog could issue:
    [UPDATE name SET col = expr {, col = expr} WHERE col = ?] where an
    expression is a parameter or a call of a function on string
    literals. *)

Inductive token : Type :=
| KW (s : string)      (* keyword or identifier *)
| EQ | COMMA | LP | RP | QMARK
| LIT (s : string).    (* string literal *)

Definition is_keyword (s : string) : bool :=
  existsb (String.eqb s) ["UPDATE"; "SET"; "WHERE"].

Definition is_name (tk : token) : bool :=
  match tk with KW s => negb (is_keyword s) | _ => false end.

(** literal arguments of a call, up to the closing parenthesis *)
Fixpoint parse_args (ts : list token) : option (list token) :=
  match ts with
  | LIT _ :: RP :: rest => Some rest
  | LIT _ :: COMMA :: rest => parse_args rest
  | _ => None
  end.

Definition parse_expr (ts : list token) : option (list token) :=
  match ts with
  | QMARK :: rest => Some rest
  | KW f :: LP :: RP :: rest => if is_keyword f then None else Some rest
  | KW f :: LP :: rest => if is_keyword f then None else parse_args rest
  | _ => None
  end.

Definition parse_where (ts : list token) : bool :=
  match ts with
  | [KW "WHERE"; c; EQ; QMARK] => is_name c
  | _ => false
  end.

(** the assignments after [SET], then the [WHERE] clause; [fuel] bounds
    the number of assignments *)
Fixpoint parse_assignments (fuel : nat) (ts : list token) : bool :=
  match fuel with
  | O => false
  | S fuel' =>
    match ts with
    | c :: EQ :: rest =>
      if is_name c then
        match parse_expr rest with
        | Some (COMMA :: rest') => parse_assignments fuel' rest'
        | Some rest' => parse_where rest'
        | None => false
        end
      else false
    | _ => false
    end
  end.

Definition parse_update (ts : list token) : bool :=
  match ts with
  | KW "UPDATE" :: t :: KW "SET" :: rest =>
    is_name t && parse_assignments (List.length rest) rest
  | _ => false
  end.

Definition prepare_update (ts : list token) : outcome unit :=
  if parse_update ts then Return tt
  else Raise (OperationalError "syntax error").

(** the text passed to [execute] by [Cache.update] *)
Definition update_statement : list token :=
  [KW "UPDATE"; KW "cached_files";
   KW "SET";
     KW "local_path"; EQ; QMARK;
     KW "updated_at"; EQ; KW "datetime"; LP; LIT "now"; COMMA; LIT "localtime"; RP;
   KW "WEHRE";
     KW "id"; EQ; QMARK].

End sqlite3.
Import sqlite3.

(* ================================================================== *)
(** ** [CachedFile] *)

Module CachedFile.

Record t : Type := mk {
  id : Z;
  url : string;
  local_path : string;
  created_at : Z;
  updated_at : Z
}.

(** [CachedFile] unpacked from a row, built in working directory [cwd] *)
Definition __init__ (cwd : string) (row : Row) : t :=
  {| id := row_id row;
     url := row_url row;
     local_path := Path.absolute cwd (row_local_path row);
     created_at := row_created_at row;
     updated_at := row_updated_at row |}.

End CachedFile.
Abbreviation CachedFile := CachedFile.t.

(* ================================================================== *)
(** ** The state: a [Cache] object and the world around it *)

Record State : Type := mkState {
  (* the attributes of the Cache object *)
  _cache_directory : string;
  _expire_days : option Z;
  _connection : option Connection;
  _cursor : option Cursor;
  (* the world *)
  database : list Row;      (* committed rows of the file at _sqlite_path *)
  files : list string;      (* the regular files that exist, by path *)
  clock : Z;                (* local time, in seconds *)
  cwd : string;             (* working directory of the process *)
  urandom : nat -> Z;       (* the k-th 16-byte draw of os.urandom *)
  drawn : nat               (* number of draws made so far *)
}.

Definition set_connection (c : option Connection) (k : option Cursor) (s : State) : State :=
  mkState (_cache_directory s) (_expire_days s) c k
          (database s) (files s) (clock s) (cwd s) (urandom s) (drawn s).

Definition set_database (d : list Row) (s : State) : State :=
  mkState (_cache_directory s) (_expire_days s) (_connection s) (_cursor s)
          d (files s) (clock s) (cwd s) (urandom s) (drawn s).

Definition set_files (f : list string) (s : State) : State :=
  mkState (_cache_directory s) (_expire_days s) (_connection s) (_cursor s)
          (database s) f (clock s) (cwd s) (urandom s) (drawn s).

Definition set_drawn (n : nat) (s : State) : State :=
  mkState (_cache_directory s) (_expire_days s) (_connection s) (_cursor s)
          (database s) (files s) (clock s) (cwd s) (urandom s) n.

(** A computation: runs in a state, returns or raises, leaves a state. *)
Definition M (A : Type) : Type := State -> outcome A * State.

Definition ret {A} (a : A) : M A := fun s => (Return a, s).

Definition raise {A} (e : exn) : M A := fun s => (Raise e, s).

Definition bind {A B} (c : M A) (k : A -> M B) : M B :=
  fun s =>
    match c s with
    | (Return a, s') => k a s'
    | (Raise e, s') => (Raise e, s')
    end.

Declare Scope py_scope.
Delimit Scope py_scope with py.
Notation "x <- c ;; k" := (bind c (fun x => k))
  (at level 61, c at next level, right associativity) : py_scope.
Notation "c ;; k" := (bind c (fun _ => k))
  (at level 61, right associativity) : py_scope.
Local Open Scope py_scope.

(** [for item in items: body(item)] *)
Fixpoint for_each {A} (items : list A) (body : A -> M unit) : M unit :=
  match items with
  | [] => ret tt
  | item :: rest => body item ;; for_each rest body
  end.

(** [try: body finally: handler] *)
Definition try_finally {A} (body : M A) (handler : M unit) : M A :=
  fun s =>
    match body s with
    | (r, s1) =>
      match handler s1 with
      | (Return _, s2) => (r, s2)
      | (Raise e, s2) => (Raise e, s2)
      end
    end.

(** [with cm: body], for a context manager given by its [__enter__] and
    [__exit__]; [None] is returned when [__exit__] suppressed an exception
    of the body by returning a true value. *)
Definition with_ {A} (enter : M unit) (exit : M bool) (body : M A) : M (option A) :=
  fun s =>
    match enter s with
    | (Raise e, s1) => (Raise e, s1)
    | (Return _, s1) =>
      match body s1 with
      | (Return a, s2) =>
        match exit s2 with
        | (Return _, s3) => (Return (Some a), s3)
        | (Raise e, s3) => (Raise e, s3)
        end
      | (Raise e, s2) =>
        match exit s2 with
        | (Return true, s3) => (Return None, s3)
        | (Return false, s3) => (Raise e, s3)
        | (Raise e', s3) => (Raise e', s3)
        end
      end
    end.

(** [os.remove(path)] *)
Definition os_remove (path : string) : M unit :=
  fun s =>
    if existsb (String.eqb path) (files s)
    then (Return tt, set_files (filter (fun p => negb (String.eqb p path)) (files s)) s)
    else (Raise (FileNotFoundError path), s).

(** [os.urandom(16)], as an integer *)
Definition os_urandom16 : M Z :=
  fun s => (Return (urandom s (drawn s) mod 2 ^ 128), set_drawn (S (drawn s)) s).

(** [uuid.uuid4().hex] *)
Definition uuid4_hex : M string :=
  r <- os_urandom16 ;; ret (uuid.hex (uuid.UUID_v4 r)).

(* ================================================================== *)
(** ** [Cache] *)

(** [__init__] and [migrate] are not part of the model: every state has the
    table [cached_files], with the schema of [migrate] ([id] the primary
    key, [url] unique, both timestamps defaulting to the local time), which
    is what [sqlite3.insert] implements.  The two [assert] statements that
    follow [_check_connection] in [add], [update], [clean] and [delete]
    cannot fail after it and are left out. *)

Module Cache.

Definition __enter__ : M unit :=
  fun s =>
    (Return tt,
     set_connection (Some {| table := database s |})
                    (Some {| lastrowid := None |}) s).

(** The arguments (the exception in flight, if any) are not looked at. *)
Definition __exit__ : M bool :=
  fun s =>
    match _connection s, _cursor s with
    | Some connection, Some _ =>
      (* commit, close the cursor and the connection, forget both *)
      (Return true, set_connection None None (set_database (table connection) s))
    | _, _ => (Raise AssertionError, s)
    end.

(** [with cache.tx(): body], through [contextlib.contextmanager] *)
Definition tx {A} (body : M A) : M A :=
  try_finally (__enter__ ;; body) (__exit__ ;; ret tt).

(** [with cache: body] *)
Definition with_cache {A} (body : M A) : M (option A) :=
  with_ __enter__ __exit__ body.

Definition _check_connection : M unit :=
  fun s =>
    match _connection s, _cursor s with
    | Some _, Some _ => (Return tt, s)
    | _, _ => (Raise (RuntimeError "SQLite connection is not established."), s)
    end.

Definition _get_connection : M Connection :=
  fun s =>
    match _connection s with
    | Some connection => (Return connection, s)
    | None => (Return {| table := database s |}, s)
    end.

Definition _generate_unique_filename : M string :=
  name <- uuid4_hex ;;
  fun s => (Return (Path.truediv (_cache_directory s) name), s).

(** what [execute] of a statement of [self._cursor] works on *)
Definition cursor_table : M (list Row) :=
  fun s =>
    match _connection s, _cursor s with
    | Some connection, Some _ => (Return (table connection), s)
    | _, _ => (Raise AttributeError, s)
    end.

Definition cursor_write (t : list Row) (rowid : option Z) : M unit :=
  fun s =>
    match _cursor s with
    | Some cursor =>
      (Return tt,
       set_connection (Some {| table := t |})
                      (Some match rowid with
                            | Some _ => {| lastrowid := rowid |}
                            | None => cursor
                            end) s)
    | None => (Raise AttributeError, s)
    end.

Definition cursor_lastrowid : M (option Z) :=
  fun s =>
    match _cursor s with
    | Some cursor => (Return (lastrowid cursor), s)
    | None => (Raise AttributeError, s)
    end.

Definition not_found : exn :=
  CacheNotFoundError "Cache not found with id=<built-in function id>".

Definition by_id (id_ : Z) : M CachedFile :=
  connection <- _get_connection ;;
  match select_by_id id_ (table connection) with
  | [] => raise not_found
  | row :: _ => fun s => (Return (CachedFile.__init__ (cwd s) row), s)
  end.

Definition by_url (url : string) : M CachedFile :=
  connection <- _get_connection ;;
  match select_by_url url (table connection) with
  | [] => raise not_found
  | row :: _ => fun s => (Return (CachedFile.__init__ (cwd s) row), s)
  end.

Definition __contains__ (url : string) : M bool :=
  fun s =>
    match by_url url s with
    | (Return _, s') => (Return true, s')
    | (Raise (CacheNotFoundError _), s') => (Return false, s')
    | (Raise e, s') => (Raise e, s')
    end.

Definition add (url : string) : M CachedFile :=
  _check_connection ;;
  local_path <- _generate_unique_filename ;;
  t <- cursor_table ;;
  now <- (fun s => (Return (clock s), s)) ;;
  match insert url local_path now t with
  | Raise e => raise e
  | Return (t', rowid) =>
    cursor_write t' (Some rowid) ;;
    rowid <- cursor_lastrowid ;;
    match rowid with
    | Some id_ => by_id id_
    | None => raise not_found      (* [id = NULL] selects no row *)
    end
  end.

(** The statement is prepared first; its parameters are bound next, and
    [item.local_path] is a [Path], a type [sqlite3] has no adapter for. *)
Definition update (item : CachedFile) : M unit :=
  _check_connection ;;
  match prepare_update update_statement with
  | Raise e => raise e
  | Return _ => raise (InterfaceError "Error binding parameter 0")
  end.

Definition delete (item : CachedFile) : M unit :=
  _check_connection ;;
  t <- cursor_table ;;
  cursor_write (delete_by_id (CachedFile.id item) t) None ;;
  os_remove (CachedFile.local_path item).

Definition clean : M unit :=
  _check_connection ;;
  expire_days <- (fun s => (Return (_expire_days s), s)) ;;
  match expire_days with
  | Some days =>
    let expire_seconds := days * 86400 in
    t <- cursor_table ;;
    now <- (fun s => (Return (clock s), s)) ;;
    let rows := select_expired now expire_seconds t in
    deleted_files <- (fun s => (Return (map (CachedFile.__init__ (cwd s)) rows), s)) ;;
    for_each deleted_files delete
  | None => ret tt
  end.

Definition list : M (Datatypes.list CachedFile) :=
  connection <- _get_connection ;;
  fun s => (Return (map (CachedFile.__init__ (cwd s)) (table connection)), s).

(** Modelled from the spec: [list_expired_caches], which
    [commands/remove.py] calls and [cache.py] does not define.  The spec:
    a companion read-only operation enumerates expired entries (same
    predicate) without deleting; read-only lookups reuse the open
    connection or open a short-lived one. *)
Definition list_expired_caches : M (Datatypes.list CachedFile) :=
  connection <- _get_connection ;;
  fun s =>
    match _expire_days s with
    | Some days =>
      (Return (map (CachedFile.__init__ (cwd s))
                   (select_expired (clock s) (days * 86400) (table connection))), s)
    | None => (Return [], s)
    end.

End Cache.

(* ================================================================== *)
(** ** Vocabulary of the properties *)

(** A scope is open: between [__enter__] and [__exit__]. *)
Definition scope_open (s : State) : Prop :=
  exists connection cursor,
    _connection s = Some connection /\ _cursor s = Some cursor.

(** The rows a statement sees: those of the open connection, or the
    committed ones when no connection is open. *)
Definition visible (s : State) : list Row :=
  match _connection s with
  | Some connection => table connection
  | None => database s
  end.

(** [id INTEGER PRIMARY KEY] of the schema created by [migrate] *)
Definition primary_key (t : list Row) : Prop := NoDup (map row_id t).

Definition has_url (u : string) (t : list Row) : bool :=
  existsb (fun r => String.eqb (row_url r) u) t.

(** the path at which an entry built from row [r] keeps its bytes *)
Definition path_of (s : State) (r : Row) : string :=
  Path.absolute (cwd s) (row_local_path r).

Definition elapsed (s : State) (r : Row) : Z := clock s - row_updated_at r.

Definition without_paths (ps : list string) (fs : list string) : list string :=
  filter (fun p => negb (existsb (String.eqb p) ps)) fs.

Definition without_ids (ids : list Z) (t : list Row) : list Row :=
  filter (fun r => negb (existsb (Z.eqb (row_id r)) ids)) t.

(** the name that the [k]-th draw of [os.urandom] turns into *)
Definition drawn_name (s : State) (k : nat) : string :=
  uuid.hex (uuid.UUID_v4 (urandom s k mod 2 ^ 128)).

(** the row that [add url] inserts in state [s] *)
Definition new_row (s : State) (url : string) : Row :=
  mkRow (next_rowid (visible s)) url
        (Path.truediv (_cache_directory s) (drawn_name s (drawn s)))
        (clock s) (clock s).

(** A call of one operation of the catalog, its result dropped. *)
Inductive call : Type :=
| Add (url : string)
| Update (item : CachedFile)
| ById (id_ : Z)
| ByUrl (url : string)
| Delete (item : CachedFile)
| Clean
| List.

Definition perform (c : call) : M unit :=
  match c with
  | Add url => Cache.add url ;; ret tt
  | Update item => Cache.update item
  | ById id_ => Cache.by_id id_ ;; ret tt
  | ByUrl url => Cache.by_url url ;; ret tt
  | Delete item => Cache.delete item
  | Clean => Cache.clean
  | List => Cache.list ;; ret tt
  end.

(** [add(url)] for each url in turn, the entries collected *)
Fixpoint add_all (urls : list string) : M (list CachedFile) :=
  match urls with
  | [] => ret []
  | url :: rest =>
    e <- Cache.add url ;;
    es <- add_all rest ;;
    ret (e :: es)
  end.

(** An example of a fresh catalog: the state after
    [Cache(cache_directory, sqlite_path, expire_days)] when neither the
    directory nor the database existed. *)
Definition fresh (cache_directory : string) (expire_days : option Z) : State :=
  mkState cache_directory expire_days None None
          [] [] 0 "/home/user" (fun k => Z.of_nat k) 0.

Definition in_scope (s : State) : State := snd (Cache.__enter__ s).


Definition script (calls : list call) : M unit := for_each calls perform.



(** the statement of [update] as it would read with the comma and with
    [WHERE] spelled out, to try the recogniser on *)
Definition update_statement_repaired : list sqlite3.token :=
  [KW "UPDATE"; KW "cached_files";
   KW "SET";
     KW "local_path"; EQ; QMARK; COMMA;
     KW "updated_at"; EQ; KW "datetime"; LP; LIT "now"; COMMA; LIT "localtime"; RP;
   KW "WHERE";
     KW "id"; EQ; QMARK].

(** ** States used in the examples *)

Definition set_expire_days (d : option Z) (s : State) : State :=
  mkState (_cache_directory s) d (_connection s) (_cursor s)
          (database s) (files s) (clock s) (cwd s) (urandom s) (drawn s).

(** [dt] seconds pass *)
Definition later (dt : Z) (s : State) : State :=
  mkState (_cache_directory s) (_expire_days s) (_connection s) (_cursor s)
          (database s) (files s) (clock s + dt) (cwd s) (urandom s) (drawn s).

(** the bytes of the given rows are written to their paths *)
Definition downloaded (rows : list Row) (s : State) : State :=
  set_files (map (path_of s) rows ++ files s) s.

Definition url_a : string := "https://example.com/path/to/file_1".
Definition url_b : string := "https://example.com/path/to/file_2".
Definition url_c : string := "https://example.com/path/to/file_3".

(** A fresh catalog with a one-day expiry, in an open scope. *)
Definition opened : State := in_scope (fresh "/cache/artifacts" (Some 1)).

(** Three urls were added and nothing was downloaded. *)
Definition three_added : State := snd (add_all [url_a; url_b; url_c] opened).

Definition row_a : Row := nth 0 (visible three_added) (mkRow 0 "" "" 0 0).
Definition row_b : Row := nth 1 (visible three_added) (mkRow 0 "" "" 0 0).
Definition row_c : Row := nth 2 (visible three_added) (mkRow 0 "" "" 0 0).

(** Two days later: every entry is older than the one-day threshold. *)
Definition stale : State := later 172800 three_added.

(** The same, with the bytes of every entry on disk. *)
Definition stale_on_disk : State := downloaded (visible stale) stale.

(** The same, with the bytes of the first entry only. *)
Definition stale_first_on_disk : State := downloaded [row_a] stale.

(* ================================================================== *)
(** ** Further vocabulary: the rest of [cache.py] and its callers *)

(** [url TEXT NOT NULL UNIQUE] of the schema created by [migrate] *)
Definition unique_url (t : list Row) : Prop := NoDup (map row_url t).

Definition is_hex_char (c : ascii) : bool :=
  existsb (Ascii.eqb c) (list_ascii_of_string "0123456789abcdef").

Fixpoint string_forallb (f : ascii -> bool) (s : string) : bool :=
  match s with
  | EmptyString => true
  | String c rest => f c && string_forallb f rest
  end.

(** [commands/remove.py], the statement that deletes the chosen entries:
    [with cache: for cached_file in cached_files: cache.delete(cached_file)] *)
Definition remove_chosen (cached_files : list CachedFile) : M (option unit) :=
  Cache.with_cache (for_each cached_files Cache.delete).

(** numbers in strictly increasing order *)
Fixpoint ascending (l : list Z) : Prop :=
  match l with
  | [] => True
  | x :: rest => (forall y, In y rest -> x < y) /\ ascending rest
  end.

(** the rows are stored in the order of their ids *)
Definition ascending_ids (t : list Row) : Prop := ascending (map row_id t).

Definition url_d : string := "https://example.com/path/to/file_4".


(** Two days after three adds, a fourth url is added: three stale entries
    and one new, nothing on disk. *)
Definition mixed : State := snd (Cache.add url_d stale).

(** Three stale entries, all on disk, the scope left. *)
Definition committed_on_disk : State := snd (Cache.__exit__ stale_on_disk).

(* ================================================================== *)
(** ** Lemmas on the table *)

Lemma fold_left_max_ge (l : list Z) (a : Z) :
  a <= fold_left Z.max l a /\ forall x, In x l -> x <= fold_left Z.max l a.
Proof.
  revert a; induction l as [|y l IH]; intros a; simpl.
  - split; [lia | tauto].
  - destruct (IH (Z.max a y)) as [Ha Hl]. split; [lia|].
    intros x [<-|Hx]; [lia | auto].
Qed.

Lemma next_rowid_fresh (t : list Row) (r : Row) :
  In r t -> row_id r < next_rowid t.
Proof.
  intros Hin. apply (in_map row_id) in Hin. unfold next_rowid.
  destruct (map row_id t) as [|i l]; [contradiction|].
  destruct (fold_left_max_ge l i) as [Hi Hl].
  destruct Hin as [<-|Hin]; [lia | specialize (Hl _ Hin); lia].
Qed.

Lemma select_by_id_none (i : Z) (t : list Row) :
  (forall r, In r t -> row_id r <> i) -> select_by_id i t = [].
Proof.
  unfold select_by_id. induction t as [|r t IH]; intros H; simpl; [reflexivity|].
  destruct (Z.eqb_spec (row_id r) i) as [E|_].
  - exfalso. apply (H r); [now left | exact E].
  - apply IH. intros r' Hr'. apply H. now right.
Qed.

Lemma select_by_id_new (t : list Row) (r : Row) :
  row_id r = next_rowid t -> select_by_id (row_id r) (t ++ [r]) = [r].
Proof.
  intros E. unfold select_by_id. rewrite filter_app.
  fold (select_by_id (row_id r) t). rewrite select_by_id_none.
  - simpl. now rewrite Z.eqb_refl.
  - intros r' Hr'. apply next_rowid_fresh in Hr'. lia.
Qed.

Lemma has_url_false (u : string) (t : list Row) :
  has_url u t = false <-> ~ In u (map row_url t).
Proof.
  unfold has_url. induction t as [|r t IH]; simpl.
  - tauto.
  - destruct (String.eqb_spec (row_url r) u) as [E|N]; simpl.
    + split; [discriminate | intros H; exfalso; apply H; now left].
    + rewrite IH. tauto.
Qed.

Lemma select_by_url_none (u : string) (t : list Row) :
  has_url u t = false -> select_by_url u t = [].
Proof.
  unfold has_url, select_by_url. induction t as [|r t IH]; simpl; [reflexivity|].
  destruct (String.eqb (row_url r) u); simpl; [discriminate | exact IH].
Qed.

Lemma select_by_url_new (t : list Row) (r : Row) :
  has_url (row_url r) t = false -> select_by_url (row_url r) (t ++ [r]) = [r].
Proof.
  intros H. unfold select_by_url. rewrite filter_app.
  fold (select_by_url (row_url r) t). rewrite (select_by_url_none _ _ H).
  simpl. now rewrite String.eqb_refl.
Qed.

Lemma select_by_id_deleted (i : Z) (t : list Row) :
  select_by_id i (delete_by_id i t) = [].
Proof.
  apply select_by_id_none. unfold delete_by_id. intros r Hr.
  apply filter_In in Hr. destruct Hr as [_ Hr].
  destruct (Z.eqb_spec (row_id r) i); [discriminate | assumption].
Qed.

(* ================================================================== *)
(** ** What each operation does in a state *)

Ltac unfold_py :=
  cbv beta delta [bind ret raise Cache.add Cache.update Cache.delete Cache.clean
                  Cache.by_id Cache.by_url Cache.list Cache.list_expired_caches
                  Cache._check_connection Cache._get_connection
                  Cache._generate_unique_filename Cache.cursor_table
                  Cache.cursor_write Cache.cursor_lastrowid
                  uuid4_hex os_urandom16 os_remove].

Lemma scope_open_visible (s : State) connection :
  _connection s = Some connection -> visible s = table connection.
Proof. unfold visible. now intros ->. Qed.

Lemma check_connection_closed (s : State) :
  _connection s = None \/ _cursor s = None ->
  Cache._check_connection s =
  (Raise (RuntimeError "SQLite connection is not established."), s).
Proof.
  unfold Cache._check_connection. intros [H|H]; rewrite H; [reflexivity|].
  now destruct (_connection s).
Qed.

Lemma add_eq (s : State) connection cursor (u : string) :
  _connection s = Some connection -> _cursor s = Some cursor ->
  Cache.add u s =
  if has_url u (table connection)
  then (Raise (IntegrityError "UNIQUE constraint failed: cached_files.url"),
        set_drawn (S (drawn s)) s)
  else (Return (CachedFile.__init__ (cwd s) (new_row s u)),
        set_connection (Some {| table := table connection ++ [new_row s u] |})
                       (Some {| lastrowid := Some (next_rowid (table connection)) |})
                       (set_drawn (S (drawn s)) s)).
Proof.
  intros Hc Hk. unfold new_row. rewrite (scope_open_visible _ _ Hc).
  unfold_py. rewrite Hc, Hk. cbn [_connection _cursor set_drawn set_connection].
  rewrite Hc, Hk. unfold insert. fold (has_url u (table connection)).
  destruct (has_url u (table connection)); [reflexivity|].
  cbn [_connection _cursor set_drawn set_connection table lastrowid cwd clock
       _cache_directory].
  rewrite Hk.
  cbn [_connection _cursor set_drawn set_connection table lastrowid cwd clock
       _cache_directory].
  set (r := mkRow _ _ _ _ _).
  change (next_rowid (table connection)) with (row_id r) at 1.
  rewrite select_by_id_new by reflexivity.
  reflexivity.
Qed.

Ltac step_py Hc Hk :=
  repeat first
    [ rewrite Hc | rewrite Hk
    | progress cbn [_connection _cursor _cache_directory _expire_days database
                    files clock cwd urandom drawn table lastrowid
                    set_connection set_database set_files set_drawn] ].

Lemma by_id_eq (s : State) (i : Z) :
  Cache.by_id i s =
  match select_by_id i (visible s) with
  | [] => (Raise Cache.not_found, s)
  | row :: _ => (Return (CachedFile.__init__ (cwd s) row), s)
  end.
Proof.
  unfold_py. unfold visible.
  destruct (_connection s) as [c|]; cbn [table];
    match goal with |- context [select_by_id i ?t] => now destruct (select_by_id i t) end.
Qed.

Lemma by_url_eq (s : State) (u : string) :
  Cache.by_url u s =
  match select_by_url u (visible s) with
  | [] => (Raise Cache.not_found, s)
  | row :: _ => (Return (CachedFile.__init__ (cwd s) row), s)
  end.
Proof.
  unfold_py. unfold visible.
  destruct (_connection s) as [c|]; cbn [table];
    match goal with |- context [select_by_url u ?t] => now destruct (select_by_url u t) end.
Qed.

Lemma list_eq (s : State) :
  Cache.list s = (Return (map (CachedFile.__init__ (cwd s)) (visible s)), s).
Proof. unfold_py. unfold visible. now destruct (_connection s). Qed.

Example update_statement_rejected :
  parse_update update_statement = false
  /\ parse_update update_statement_repaired = true.
Proof. split; reflexivity. Qed.

Lemma update_eq (s : State) connection cursor (item : CachedFile) :
  _connection s = Some connection -> _cursor s = Some cursor ->
  Cache.update item s = (Raise (OperationalError "syntax error"), s).
Proof. intros Hc Hk. unfold_py. now rewrite Hc, Hk. Qed.

(** the state of an open scope with table [t] and files [f] *)
Lemma delete_eq (s : State) connection cursor (item : CachedFile) :
  _connection s = Some connection -> _cursor s = Some cursor ->
  Cache.delete item s =
  let s1 := set_connection
              (Some {| table := delete_by_id (CachedFile.id item) (table connection) |})
              (Some cursor) s in
  if existsb (String.eqb (CachedFile.local_path item)) (files s)
  then (Return tt, set_files (without_paths [CachedFile.local_path item] (files s)) s1)
  else (Raise (FileNotFoundError (CachedFile.local_path item)), s1).
Proof.
  intros Hc Hk. unfold_py. step_py Hc Hk.
  destruct (existsb _ (files s)); [|reflexivity].
  do 2 f_equal. unfold without_paths. apply filter_ext. intros p. cbn [existsb].
  now rewrite orb_false_r.
Qed.

Lemma for_each_app {A} (pre rest : list A) (body : A -> M unit) (s : State) :
  for_each (pre ++ rest) body s =
  match for_each pre body s with
  | (Return _, s') => for_each rest body s'
  | (Raise e, s') => (Raise e, s')
  end.
Proof.
  revert s; induction pre as [|a pre IH]; intros s; simpl; [reflexivity|].
  unfold bind. destruct (body a s) as [[[]|e] s']; [apply IH | reflexivity].
Qed.

(* ================================================================== *)
(** ** The sweep of [clean] *)

Lemma NoDup_map_inj {A B} (f : A -> B) (l : list A) (x y : A) :
  NoDup (map f l) -> In x l -> In y l -> f x = f y -> x = y.
Proof.
  induction l as [|a l IH]; simpl; intros Hnd Hx Hy E; [contradiction|].
  inversion Hnd as [|? ? Hna Hnd']; subst.
  destruct Hx as [->|Hx], Hy as [->|Hy]; auto.
  - exfalso. apply Hna. rewrite E. now apply in_map.
  - exfalso. apply Hna. rewrite <- E. now apply in_map.
Qed.

Lemma existsb_Zeqb_In (i : Z) (l : list Z) :
  existsb (Z.eqb i) l = true <-> In i l.
Proof.
  rewrite existsb_exists. split.
  - intros [x [Hx E]]. apply Z.eqb_eq in E. now subst.
  - intros H. exists i. split; [assumption | apply Z.eqb_refl].
Qed.

Lemma existsb_eqb_In (p : string) (l : list string) :
  existsb (String.eqb p) l = true <-> In p l.
Proof.
  rewrite existsb_exists. split.
  - intros [x [Hx E]]. apply String.eqb_eq in E. now subst.
  - intros H. exists p. split; [assumption | apply String.eqb_refl].
Qed.

Lemma without_ids_nil (t : list Row) : without_ids [] t = t.
Proof.
  unfold without_ids. cbn [existsb negb].
  induction t as [|r t IH]; cbn [filter]; [reflexivity | now rewrite IH].
Qed.

Lemma without_paths_nil (f : list string) : without_paths [] f = f.
Proof.
  unfold without_paths. cbn [existsb negb].
  induction f as [|p f IH]; cbn [filter]; [reflexivity | now rewrite IH].
Qed.

Lemma filter_twice {A} (f g : A -> bool) (l : list A) :
  filter g (filter f l) = filter (fun x => f x && g x) l.
Proof.
  induction l as [|a l IH]; cbn [filter]; [reflexivity|].
  destruct (f a); cbn [filter andb]; [|exact IH].
  destruct (g a); [now rewrite IH | exact IH].
Qed.

Lemma without_ids_cons (i : Z) (ids : list Z) (t : list Row) :
  without_ids ids (delete_by_id i t) = without_ids (i :: ids) t.
Proof.
  unfold without_ids, delete_by_id. rewrite filter_twice. apply filter_ext.
  intros r. cbn [existsb]. now rewrite negb_orb.
Qed.

Lemma delete_by_id_single (i : Z) (t : list Row) :
  delete_by_id i t = without_ids [i] t.
Proof.
  unfold delete_by_id, without_ids. apply filter_ext. intros r. cbn [existsb].
  now rewrite orb_false_r.
Qed.

Lemma without_ids_app (ids ids' : list Z) (t : list Row) :
  without_ids ids' (without_ids ids t) = without_ids (ids ++ ids') t.
Proof.
  unfold without_ids. rewrite filter_twice. apply filter_ext.
  intros r. now rewrite existsb_app, negb_orb.
Qed.

Lemma without_paths_cons (p : string) (ps : list string) (f : list string) :
  without_paths ps (without_paths [p] f) = without_paths (p :: ps) f.
Proof.
  unfold without_paths. rewrite filter_twice. apply filter_ext.
  intros q. cbn [existsb]. now rewrite orb_false_r, negb_orb.
Qed.

Lemma in_without_paths (q : string) (ps f : list string) :
  In q (without_paths ps f) <-> In q f /\ ~ In q ps.
Proof.
  unfold without_paths. rewrite filter_In, negb_true_iff.
  rewrite <- not_true_iff_false, existsb_eqb_In. tauto.
Qed.

Lemma in_without_ids (r : Row) (ids : list Z) (t : list Row) :
  In r (without_ids ids t) <-> In r t /\ ~ In (row_id r) ids.
Proof.
  unfold without_ids. rewrite filter_In, negb_true_iff.
  rewrite <- not_true_iff_false, existsb_Zeqb_In. tauto.
Qed.

(** Under the primary key, removing the ids of the selected rows removes
    the selected rows and no other. *)
Lemma without_selected_ids (P : Row -> bool) (t : list Row) :
  primary_key t ->
  without_ids (map row_id (filter P t)) t = filter (fun r => negb (P r)) t.
Proof.
  intros Hpk. unfold without_ids. apply filter_ext_in. intros r Hr. f_equal.
  destruct (P r) eqn:HP.
  - apply existsb_Zeqb_In. apply in_map. apply filter_In. now split.
  - apply not_true_iff_false. rewrite existsb_Zeqb_In, in_map_iff.
    intros [r' [E Hr']]. apply filter_In in Hr'. destruct Hr' as [Hin HP'].
    assert (r' = r) by (eapply NoDup_map_inj; eauto). subst. congruence.
Qed.

Lemma state_eta (s : State) connection cursor :
  _connection s = Some connection -> _cursor s = Some cursor ->
  set_files (files s) (set_connection (Some {| table := table connection |}) (Some cursor) s) = s.
Proof.
  destruct s, connection; simpl. now intros -> ->.
Qed.

(** A sweep over entries whose files are all there deletes them all. *)
Lemma sweep_all (items : list CachedFile) :
  forall (s : State) connection cursor,
  _connection s = Some connection -> _cursor s = Some cursor ->
  NoDup (map CachedFile.local_path items) ->
  (forall p, In p (map CachedFile.local_path items) -> In p (files s)) ->
  for_each items Cache.delete s =
  (Return tt,
   set_files (without_paths (map CachedFile.local_path items) (files s))
     (set_connection
        (Some {| table := without_ids (map CachedFile.id items) (table connection) |})
        (Some cursor) s)).
Proof.
  induction items as [|item items IH]; intros s c k Hc Hk Hnd Hin.
  - simpl. rewrite without_paths_nil, without_ids_nil.
    now rewrite (state_eta _ _ _ Hc Hk).
  - cbn [for_each map]. unfold bind. rewrite (delete_eq _ _ _ _ Hc Hk). cbv zeta.
    inversion Hnd as [|? ? Hfresh Hnd']; subst.
    assert (Hp : existsb (String.eqb (CachedFile.local_path item)) (files s) = true).
    { apply existsb_eqb_In. apply Hin. now left. }
    rewrite Hp.
    erewrite IH; [| reflexivity | reflexivity | exact Hnd' |].
    + cbn [table files set_files set_connection _connection _cursor
           _cache_directory _expire_days database clock cwd urandom drawn].
      rewrite without_paths_cons, without_ids_cons. reflexivity.
    + intros p Hp'. cbn [files set_files]. apply in_without_paths. split.
      * apply Hin. now right.
      * intros [<-|[]]. contradiction.
Qed.

(** A sweep stops at the first entry whose file is missing: its row has
    been removed, the entries after it are left alone. *)
Lemma sweep_stops (pre post : list CachedFile) (x : CachedFile) :
  forall (s : State) connection cursor,
  _connection s = Some connection -> _cursor s = Some cursor ->
  NoDup (map CachedFile.local_path pre) ->
  (forall p, In p (map CachedFile.local_path pre) -> In p (files s)) ->
  ~ In (CachedFile.local_path x) (files s) ->
  for_each (pre ++ x :: post) Cache.delete s =
  (Raise (FileNotFoundError (CachedFile.local_path x)),
   set_files (without_paths (map CachedFile.local_path pre) (files s))
     (set_connection
        (Some {| table := without_ids (map CachedFile.id pre ++ [CachedFile.id x])
                                      (table connection) |})
        (Some cursor) s)).
Proof.
  intros s c k Hc Hk Hnd Hin Hx.
  rewrite for_each_app, (sweep_all pre _ _ _ Hc Hk Hnd Hin).
  cbn [for_each]. unfold bind. erewrite delete_eq; [| reflexivity | reflexivity].
  cbv zeta. cbn [files set_files set_connection table].
  assert (Hp : existsb (String.eqb (CachedFile.local_path x))
                 (without_paths (map CachedFile.local_path pre) (files s)) = false).
  { apply not_true_iff_false. rewrite existsb_eqb_In, in_without_paths. tauto. }
  rewrite Hp, delete_by_id_single, without_ids_app. reflexivity.
Qed.

Lemma clean_eq (s : State) connection cursor :
  _connection s = Some connection -> _cursor s = Some cursor ->
  Cache.clean s =
  match _expire_days s with
  | Some days =>
    for_each (map (CachedFile.__init__ (cwd s))
                  (select_expired (clock s) (days * 86400) (table connection)))
             Cache.delete s
  | None => (Return tt, s)
  end.
Proof.
  intros Hc Hk. unfold Cache.clean, Cache._check_connection, Cache.cursor_table, bind, ret.
  step_py Hc Hk. destruct (_expire_days s); [|reflexivity].
  step_py Hc Hk. reflexivity.
Qed.

(* ================================================================== *)
(** ** File names: [uuid4().hex] and the paths built from it *)

Lemma hex_digits_length (n : nat) :
  forall v acc, String.length (uuid.hex_digits n v acc) = (n + String.length acc)%nat.
Proof.
  induction n as [|n IH]; intros v acc; cbn [uuid.hex_digits]; [reflexivity|].
  rewrite IH. cbn [String.length]. lia.
Qed.



Lemma hex_length (v : Z) : String.length (uuid.hex v) = 32%nat.
Proof. unfold uuid.hex. now rewrite hex_digits_length. Qed.


Lemma hexdigit_not_slash (d : Z) : uuid.hexdigit d <> "/"%char.
Proof.
  destruct d as [|p|p]; try discriminate.
  do 5 (try destruct p as [p|p|]); discriminate.
Qed.

Lemma hex_digits_head (n : nat) :
  forall v acc, exists d rest,
    uuid.hex_digits (S n) v acc = String (uuid.hexdigit d) rest.
Proof.
  induction n as [|n IH]; intros v acc.
  - cbn. eauto.
  - change (uuid.hex_digits (S (S n)) v acc)
      with (uuid.hex_digits (S n) (v / 16) (String (uuid.hexdigit (v mod 16)) acc)).
    apply IH.
Qed.

Lemma hex_relative (v : Z) : Path.is_absolute (uuid.hex v) = false.
Proof.
  unfold uuid.hex. destruct (hex_digits_head 31 v "") as [d [rest ->]].
  unfold Path.is_absolute. pose proof (hexdigit_not_slash d) as Hd.
  destruct (uuid.hexdigit d) as [[] [] [] [] [] [] [] []]; try reflexivity.
  now elim Hd.
Qed.







(* ================================================================== *)
(** ** Scopes *)

Lemma enter_open (s : State) : scope_open (in_scope s).
Proof. unfold scope_open, in_scope. cbn. eauto. Qed.

Lemma exit_eq (s : State) :
  scope_open s ->
  Cache.__exit__ s = (Return true, set_connection None None (set_database (visible s) s)).
Proof.
  intros [c [k [Hc Hk]]]. unfold Cache.__exit__, visible. now rewrite Hc, Hk.
Qed.

Lemma sweep_keeps_scope (items : list CachedFile) :
  forall s, scope_open s -> scope_open (snd (for_each items Cache.delete s)).
Proof.
  induction items as [|item items IH]; intros s Hs; [exact Hs|].
  cbn [for_each]. unfold bind. destruct Hs as [c [k [Hc Hk]]].
  rewrite (delete_eq _ _ _ _ Hc Hk). cbv zeta.
  destruct (existsb _ (files s)).
  - apply IH. unfold scope_open. cbn. eauto.
  - unfold scope_open. cbn. eauto.
Qed.

Lemma perform_keeps_scope (c : call) (s : State) :
  scope_open s -> scope_open (snd (perform c s)).
Proof.
  intros Hs. pose proof Hs as [cn [k [Hc Hk]]].
  destruct c as [u|item|i|u|item| |]; cbn [perform]; unfold bind, ret.
  - rewrite (add_eq _ _ _ _ Hc Hk). destruct (has_url u (table cn));
      unfold scope_open; cbn; eauto.
  - now rewrite (update_eq _ _ _ _ Hc Hk).
  - rewrite by_id_eq. now destruct (select_by_id i (visible s)).
  - rewrite by_url_eq. now destruct (select_by_url u (visible s)).
  - rewrite (delete_eq _ _ _ _ Hc Hk). cbv zeta.
    destruct (existsb _ (files s)); unfold scope_open; cbn; eauto.
  - rewrite (clean_eq _ _ _ Hc Hk). destruct (_expire_days s); [|exact Hs].
    now apply sweep_keeps_scope.
  - now rewrite list_eq.
Qed.

Lemma script_keeps_scope (calls : list call) :
  forall s, scope_open s -> scope_open (snd (script calls s)).
Proof.
  unfold script. induction calls as [|c calls IH]; intros s Hs; [exact Hs|].
  cbn [for_each]. unfold bind.
  pose proof (perform_keeps_scope c s Hs) as Hs'.
  destruct (perform c s) as [[[]|e] s']; [now apply IH | exact Hs'].
Qed.

(** What [with cache: body] comes to when the body leaves the scope open. *)
Lemma with_cache_eq {A} (body : M A) (s : State) :
  scope_open (snd (body (in_scope s))) ->
  Cache.with_cache body s =
  (match fst (body (in_scope s)) with
   | Return a => Return (Some a)
   | Raise _ => Return None
   end,
   let s2 := snd (body (in_scope s)) in
   set_connection None None (set_database (visible s2) s2)).
Proof.
  intros Hs. unfold Cache.with_cache, with_.
  change (Cache.__enter__ s) with (Return tt, in_scope s). cbv iota beta.
  destruct (body (in_scope s)) as [[a|e] s2]; cbn [fst snd] in *;
    now rewrite (exit_eq _ Hs).
Qed.

(** What [with cache.tx(): body] comes to when the body leaves the scope
    open. *)
Lemma tx_eq {A} (body : M A) (s : State) :
  scope_open (snd (body (in_scope s))) ->
  Cache.tx body s =
  (fst (body (in_scope s)),
   let s2 := snd (body (in_scope s)) in
   set_connection None None (set_database (visible s2) s2)).
Proof.
  intros Hs. unfold Cache.tx, try_finally, bind, ret.
  change (Cache.__enter__ s) with (Return tt, in_scope s). cbv iota beta.
  destruct (body (in_scope s)) as [r s2]; cbn [fst snd] in *.
  now rewrite (exit_eq _ Hs).
Qed.

(* ================================================================== *)
(** ** Error propagation and scopes *)

(** C1 (the code departs from it).  The claim: a failure of an operation
    inside an open scope reaches the caller after the scope exits.  Each
    operation does hand its failure to its caller, and [tx] lets it through,
    but [__exit__] returns [True], so the statement [with cache:] never
    raises, whatever calls its body makes; in a fresh catalog the second
    [add] of one url raises [IntegrityError] inside the scope, the [with]
    statement ends normally, and the same body under [tx] raises. *)
Theorem C1_with_statement_swallows_errors :
  (forall (calls : list call) (s : State),
     exists r s', Cache.with_cache (script calls) s = (Return r, s'))
  /\
  (let body := script [Add url_a; Add url_a] in
   let s := fresh "/cache/artifacts" None in
   fst (body (in_scope s))
     = Raise (IntegrityError "UNIQUE constraint failed: cached_files.url")
   /\ fst (Cache.with_cache body s) = Return None
   /\ fst (Cache.tx body s)
     = Raise (IntegrityError "UNIQUE constraint failed: cached_files.url")).
Proof.
  split.
  - intros calls s.
    rewrite with_cache_eq by (apply script_keeps_scope, enter_open).
    destruct (fst (script calls (in_scope s))); eauto.
  - cbv zeta. repeat split; vm_compute; reflexivity.
Qed.

(** C4.  Leaving a scope, by the [with] statement or by [tx], commits and
    drops the connection and the cursor whatever happened inside: the
    committed rows are the rows that the connection saw at the point where
    the body stopped, whether it returned or raised, and no scope is open
    afterwards.  So in a fresh catalog, when the second [add] of one url
    raises, the row of the first is committed all the same. *)
Theorem C4_scope_exit_commits :
  (forall (calls : list call) (s : State),
     let stopped := snd (script calls (in_scope s)) in
     let after := set_connection None None (set_database (visible stopped) stopped) in
     snd (Cache.with_cache (script calls) s) = after
     /\ snd (Cache.tx (script calls) s) = after
     /\ database after = visible stopped
     /\ _connection after = None
     /\ _cursor after = None)
  /\
  (let body := script [Add url_a; Add url_a] in
   let s := fresh "/cache/artifacts" None in
   fst (body (in_scope s))
     = Raise (IntegrityError "UNIQUE constraint failed: cached_files.url")
   /\ database (snd (Cache.with_cache body s)) = [new_row (in_scope s) url_a]
   /\ database (snd (Cache.tx body s)) = [new_row (in_scope s) url_a]).
Proof.
  split.
  - intros calls s. cbv zeta.
    rewrite with_cache_eq by (apply script_keeps_scope, enter_open).
    rewrite tx_eq by (apply script_keeps_scope, enter_open).
    repeat split.
  - cbv zeta. repeat split; vm_compute; reflexivity.
Qed.

(** An insert that succeeded before a failure in the same scope is
    committed: [update] always fails, and the row of the [add] before it is
    in the database once the scope is left. *)
Lemma failed_scope_keeps_earlier_insert (s : State) (u : string) (item : CachedFile) :
  has_url u (database s) = false ->
  fst (script [Add u; Update item] (in_scope s)) = Raise (OperationalError "syntax error")
  /\ database (snd (Cache.with_cache (script [Add u; Update item]) s))
     = database s ++ [new_row (in_scope s) u].
Proof.
  intros Hu.
  rewrite with_cache_eq by (apply script_keeps_scope, enter_open).
  unfold script. cbn [for_each perform]. unfold bind, ret.
  erewrite add_eq; [| reflexivity | reflexivity].
  cbn [table in_scope Cache.__enter__ snd]. rewrite Hu.
  erewrite update_eq; [| reflexivity | reflexivity].
  split; reflexivity.
Qed.

(** C5.  With no scope open, [add], [update], [delete] and [clean] (with
    or without an expiry threshold) raise the [RuntimeError] of
    [_check_connection], which is not one of the domain errors, and leave
    the state as it was. *)
Theorem C5_mutation_outside_scope_is_usage_error
  (s : State) (url : string) (item : CachedFile) :
  _connection s = None \/ _cursor s = None ->
  exists e,
    e = RuntimeError "SQLite connection is not established."
    /\ is_usage_error e = true /\ is_domain_error e = false
    /\ Cache.add url s = (Raise e, s)
    /\ Cache.update item s = (Raise e, s)
    /\ Cache.delete item s = (Raise e, s)
    /\ Cache.clean s = (Raise e, s).
Proof.
  intros H. eexists. split; [reflexivity|]. split; [reflexivity|]. split; [reflexivity|].
  unfold Cache.add, Cache.update, Cache.delete, Cache.clean, bind.
  rewrite (check_connection_closed s H). repeat split.
Qed.

Lemma C5_witness :
  let s := set_expire_days None (snd (Cache.with_cache (Cache.add url_a) (fresh "/cache/artifacts" (Some 1)))) in
  let item := CachedFile.__init__ (cwd s) (new_row opened url_a) in
  (_connection s = None \/ _cursor s = None)
  /\ exists e,
    e = RuntimeError "SQLite connection is not established."
    /\ is_usage_error e = true /\ is_domain_error e = false
    /\ Cache.add url_b s = (Raise e, s)
    /\ Cache.update item s = (Raise e, s)
    /\ Cache.delete item s = (Raise e, s)
    /\ Cache.clean s = (Raise e, s).
Proof.
  cbv zeta. split.
  - left. reflexivity.
  - apply C5_mutation_outside_scope_is_usage_error. left. reflexivity.
Defined.

(** C3 (the code departs from it).  The claim: [update(item)] in an open
    scope succeeds and stores [item.local_path].  In the code the statement
    of [update] is not SQL (no comma between the two assignments, [WEHRE]
    for [WHERE]): in an open scope [update] raises [OperationalError] for
    every item and changes nothing. *)
Theorem C3_update_always_fails (s : State) (item : CachedFile) :
  scope_open s ->
  Cache.update item s = (Raise (OperationalError "syntax error"), s).
Proof. intros [c [k [Hc Hk]]]. exact (update_eq s c k item Hc Hk). Qed.

Lemma C3_witness :
  let s := snd (Cache.add url_a opened) in
  let e := CachedFile.__init__ (cwd s) (new_row opened url_a) in
  let item := CachedFile.mk (CachedFile.id e) (CachedFile.url e) "/cache/artifacts/moved"
                            (CachedFile.created_at e) (CachedFile.updated_at e) in
  scope_open s
  /\ fst (Cache.by_id (CachedFile.id item) s) = Return e
  /\ Cache.update item s = (Raise (OperationalError "syntax error"), s).
Proof.
  cbv zeta. split; [|split].
  - unfold scope_open. vm_compute. eauto.
  - vm_compute. reflexivity.
  - apply C3_update_always_fails. unfold scope_open. vm_compute. eauto.
Defined.

(* ================================================================== *)
(** ** Insertion, lookup and deletion *)

Lemma has_url_app (u : string) (t t' : list Row) :
  has_url u (t ++ t') = has_url u t || has_url u t'.
Proof. unfold has_url. apply existsb_app. Qed.

Lemma add_new (s : State) (u : string) :
  scope_open s -> has_url u (visible s) = false ->
  exists s1,
    Cache.add u s = (Return (CachedFile.__init__ (cwd s) (new_row s u)), s1)
    /\ visible s1 = visible s ++ [new_row s u]
    /\ scope_open s1
    /\ database s1 = database s /\ files s1 = files s /\ cwd s1 = cwd s
    /\ clock s1 = clock s /\ urandom s1 = urandom s /\ drawn s1 = S (drawn s)
    /\ _cache_directory s1 = _cache_directory s
    /\ _expire_days s1 = _expire_days s.
Proof.
  intros [c [k [Hc Hk]]] Hu. rewrite (scope_open_visible _ _ Hc) in *.
  rewrite (add_eq _ _ _ _ Hc Hk), Hu. eexists. split; [reflexivity|].
  unfold scope_open, visible. cbn. repeat split; eauto.
Qed.

Lemma add_duplicate (s : State) (u : string) :
  scope_open s -> has_url u (visible s) = true ->
  exists s1,
    Cache.add u s
      = (Raise (IntegrityError "UNIQUE constraint failed: cached_files.url"), s1)
    /\ visible s1 = visible s
    /\ scope_open s1
    /\ database s1 = database s /\ files s1 = files s.
Proof.
  intros [c [k [Hc Hk]]] Hu. rewrite (scope_open_visible _ _ Hc) in *.
  rewrite (add_eq _ _ _ _ Hc Hk), Hu. eexists. split; [reflexivity|].
  unfold scope_open, visible. cbn. rewrite Hc, Hk. repeat split; eauto.
Qed.

(** C6.  In an open scope, [add(u)] for a url that the catalog holds raises
    [IntegrityError] and leaves every row as it was; and when [add(u)] has
    returned, a second [add(u)] raises [IntegrityError] and the catalog
    still holds the rows it held after the first. *)
Theorem C6_duplicate_url_is_rejected (s : State) (u : string) :
  scope_open s ->
  (has_url u (visible s) = true ->
   exists s1,
     Cache.add u s
       = (Raise (IntegrityError "UNIQUE constraint failed: cached_files.url"), s1)
     /\ visible s1 = visible s /\ database s1 = database s)
  /\
  (has_url u (visible s) = false ->
   exists e s1 s2,
     Cache.add u s = (Return e, s1)
     /\ Cache.add u s1
       = (Raise (IntegrityError "UNIQUE constraint failed: cached_files.url"), s2)
     /\ visible s2 = visible s1
     /\ visible s1 = visible s ++ [new_row s u]).
Proof.
  intros Hs. split; intros Hu.
  - destruct (add_duplicate s u Hs Hu) as [s1 [E [Hv [_ [Hd _]]]]]. eauto.
  - destruct (add_new s u Hs Hu) as [s1 [E [Hv [Hs1 _]]]].
    assert (Hu1 : has_url u (visible s1) = true).
    { rewrite Hv, has_url_app. unfold has_url at 2. cbn.
      now rewrite String.eqb_refl, orb_true_r. }
    destruct (add_duplicate s1 u Hs1 Hu1) as [s2 [E2 [Hv2 _]]].
    exists (CachedFile.__init__ (cwd s) (new_row s u)), s1, s2. auto.
Qed.

Lemma C6_witness :
  let s := snd (Cache.add url_a opened) in
  scope_open s
  /\ has_url url_a (visible s) = true
  /\ has_url url_b (visible s) = false
  /\ (exists s1,
        Cache.add url_a s
          = (Raise (IntegrityError "UNIQUE constraint failed: cached_files.url"), s1)
        /\ visible s1 = visible s /\ database s1 = database s)
  /\ (exists e s1 s2,
        Cache.add url_b s = (Return e, s1)
        /\ Cache.add url_b s1
          = (Raise (IntegrityError "UNIQUE constraint failed: cached_files.url"), s2)
        /\ visible s2 = visible s1
        /\ visible s1 = visible s ++ [new_row s url_b]).
Proof.
  cbv zeta.
  assert (Hs : scope_open (snd (Cache.add url_a opened)))
    by (unfold scope_open; vm_compute; eauto).
  split; [exact Hs|]. split; [reflexivity|]. split; [reflexivity|].
  split.
  - apply (proj1 (C6_duplicate_url_is_rejected _ url_a Hs)). reflexivity.
  - apply (proj2 (C6_duplicate_url_is_rejected _ url_b Hs)). reflexivity.
Defined.

(** C7.  In an open scope, [add(u)] for a url that the catalog does not
    hold returns the entry built from the row it inserted, whose id is the
    one the store assigned; [by_id] of that id and [by_url(u)] return that
    same entry, in the scope and after the scope is left. *)
Theorem C7_add_then_lookup (s : State) (u : string) :
  scope_open s -> has_url u (visible s) = false ->
  exists e s1 s2,
    Cache.add u s = (Return e, s1)
    /\ e = CachedFile.__init__ (cwd s) (new_row s u)
    /\ CachedFile.id e = next_rowid (visible s)
    /\ CachedFile.url e = u
    /\ Cache.by_id (CachedFile.id e) s1 = (Return e, s1)
    /\ Cache.by_url u s1 = (Return e, s1)
    /\ Cache.__exit__ s1 = (Return true, s2)
    /\ Cache.by_id (CachedFile.id e) s2 = (Return e, s2)
    /\ Cache.by_url u s2 = (Return e, s2).
Proof.
  intros Hs Hu.
  destruct (add_new s u Hs Hu)
    as [s1 [E [Hv [Hs1 [Hd [Hf [Hcwd _]]]]]]].
  exists (CachedFile.__init__ (cwd s) (new_row s u)), s1,
         (set_connection None None (set_database (visible s1) s1)).
  split; [exact E|]. split; [reflexivity|]. split; [reflexivity|].
  split; [reflexivity|].
  assert (Hid : select_by_id (row_id (new_row s u)) (visible s ++ [new_row s u])
                = [new_row s u]) by (apply select_by_id_new; reflexivity).
  assert (Hurl : select_by_url u (visible s ++ [new_row s u]) = [new_row s u])
    by (apply (select_by_url_new (visible s) (new_row s u)); exact Hu).
  cbn [CachedFile.id CachedFile.__init__].
  rewrite !by_id_eq, !by_url_eq, (exit_eq _ Hs1).
  change (visible (set_connection None None (set_database (visible s1) s1)))
    with (visible s1).
  cbn [cwd set_connection set_database]. rewrite Hv, Hid, Hurl, Hcwd.
  repeat split.
Qed.

Lemma C7_witness :
  let s := snd (Cache.add url_a opened) in
  scope_open s /\ has_url url_b (visible s) = false
  /\ exists e s1 s2,
    Cache.add url_b s = (Return e, s1)
    /\ e = CachedFile.__init__ (cwd s) (new_row s url_b)
    /\ CachedFile.id e = next_rowid (visible s)
    /\ CachedFile.url e = url_b
    /\ Cache.by_id (CachedFile.id e) s1 = (Return e, s1)
    /\ Cache.by_url url_b s1 = (Return e, s1)
    /\ Cache.__exit__ s1 = (Return true, s2)
    /\ Cache.by_id (CachedFile.id e) s2 = (Return e, s2)
    /\ Cache.by_url url_b s2 = (Return e, s2).
Proof.
  cbv zeta.
  assert (Hs : scope_open (snd (Cache.add url_a opened)))
    by (unfold scope_open; vm_compute; eauto).
  split; [exact Hs|]. split; [reflexivity|].
  apply (C7_add_then_lookup _ url_b Hs). reflexivity.
Defined.

(** C8.  In an open scope, [delete(e)] removes the rows with id [e.id] and
    then the file at [e.local_path]: when the file is there the call
    returns, and afterwards [by_id(e.id)] raises the not-found error and the
    file is gone; when the file is not there the call raises
    [FileNotFoundError], the rows with id [e.id] having been removed and the
    files being as they were. *)
Theorem C8_delete_row_then_file (s : State) (item : CachedFile) :
  scope_open s ->
  (In (CachedFile.local_path item) (files s) ->
   exists s1,
     Cache.delete item s = (Return tt, s1)
     /\ visible s1 = delete_by_id (CachedFile.id item) (visible s)
     /\ files s1 = without_paths [CachedFile.local_path item] (files s)
     /\ Cache.by_id (CachedFile.id item) s1 = (Raise Cache.not_found, s1)
     /\ ~ In (CachedFile.local_path item) (files s1))
  /\
  (~ In (CachedFile.local_path item) (files s) ->
   exists s1,
     Cache.delete item s = (Raise (FileNotFoundError (CachedFile.local_path item)), s1)
     /\ visible s1 = delete_by_id (CachedFile.id item) (visible s)
     /\ files s1 = files s
     /\ Cache.by_id (CachedFile.id item) s1 = (Raise Cache.not_found, s1)).
Proof.
  intros [c [k [Hc Hk]]]. rewrite (scope_open_visible _ _ Hc).
  rewrite (delete_eq _ _ _ _ Hc Hk). cbv zeta.
  split; intros Hf.
  - apply existsb_eqb_In in Hf. rewrite Hf. eexists. split; [reflexivity|].
    rewrite by_id_eq. unfold visible. cbn [_connection set_files set_connection table files].
    rewrite select_by_id_deleted. repeat split.
    rewrite in_without_paths. intros [_ H]. apply H. now left.
  - rewrite <- existsb_eqb_In in Hf. apply not_true_iff_false in Hf.
    rewrite Hf. eexists. split; [reflexivity|].
    rewrite by_id_eq. unfold visible. cbn [_connection set_files set_connection table files].
    rewrite select_by_id_deleted. repeat split.
Qed.

Lemma C8_witness :
  let s := stale_first_on_disk in
  let a := CachedFile.__init__ (cwd s) row_a in
  let b := CachedFile.__init__ (cwd s) row_b in
  scope_open s
  /\ In (CachedFile.local_path a) (files s)
  /\ ~ In (CachedFile.local_path b) (files s)
  /\ (exists s1,
        Cache.delete a s = (Return tt, s1)
        /\ visible s1 = delete_by_id (CachedFile.id a) (visible s)
        /\ files s1 = without_paths [CachedFile.local_path a] (files s)
        /\ Cache.by_id (CachedFile.id a) s1 = (Raise Cache.not_found, s1)
        /\ ~ In (CachedFile.local_path a) (files s1))
  /\ (exists s1,
        Cache.delete b s = (Raise (FileNotFoundError (CachedFile.local_path b)), s1)
        /\ visible s1 = delete_by_id (CachedFile.id b) (visible s)
        /\ files s1 = files s
        /\ Cache.by_id (CachedFile.id b) s1 = (Raise Cache.not_found, s1)).
Proof.
  cbv zeta.
  assert (Hs : scope_open stale_first_on_disk)
    by (unfold scope_open; vm_compute; eauto).
  assert (Ha : In (CachedFile.local_path (CachedFile.__init__ (cwd stale_first_on_disk) row_a))
                  (files stale_first_on_disk))
    by (vm_compute; left; reflexivity).
  assert (Hb : ~ In (CachedFile.local_path (CachedFile.__init__ (cwd stale_first_on_disk) row_b))
                    (files stale_first_on_disk))
    by (vm_compute; intros [H|[]]; discriminate H).
  split; [exact Hs|]. split; [exact Ha|]. split; [exact Hb|]. split.
  - exact (proj1 (C8_delete_row_then_file _ _ Hs) Ha).
  - exact (proj2 (C8_delete_row_then_file _ _ Hs) Hb).
Defined.

(* ================================================================== *)
(** ** The expiry sweep *)

Lemma NoDup_map_filter {A B} (f : A -> B) (P : A -> bool) (l : list A) :
  NoDup (map f l) -> NoDup (map f (filter P l)).
Proof.
  induction l as [|a l IH]; cbn [map filter]; intros H; [constructor|].
  inversion H as [|? ? Hn Hl]; subst. destruct (P a); [|auto].
  cbn [map]. constructor; [|auto].
  intros Hin. apply Hn. apply in_map_iff in Hin. destruct Hin as [y [E Hy]].
  apply filter_In in Hy. rewrite <- E. apply in_map. tauto.
Qed.

Lemma NoDup_map_later {A B} (f : A -> B) (l1 l2 : list A) (x r : A) :
  NoDup (map f (l1 ++ x :: l2)) -> In r l2 -> ~ In (f r) (map f l1 ++ [f x]).
Proof.
  induction l1 as [|a l1 IH]; cbn [app map]; intros H Hr.
  - inversion H as [|? ? Hn _]; subst. intros [E|[]]. apply Hn. rewrite E.
    now apply in_map.
  - inversion H as [|? ? Hn Hl]; subst. intros [E|Hin].
    + apply Hn. rewrite E. apply in_map. apply in_or_app. right. now right.
    + now apply (IH Hl Hr).
Qed.

Lemma entries_paths (s : State) (rows : list Row) :
  map CachedFile.local_path (map (CachedFile.__init__ (cwd s)) rows)
  = map (path_of s) rows.
Proof. rewrite map_map. reflexivity. Qed.

Lemma entries_ids (s : State) (rows : list Row) :
  map CachedFile.id (map (CachedFile.__init__ (cwd s)) rows) = map row_id rows.
Proof. rewrite map_map. reflexivity. Qed.

(** Without an expiry threshold [clean] changes nothing, in a scope or
    out of one. *)
Lemma clean_without_expiry (s : State) :
  _expire_days s = None -> snd (Cache.clean s) = s.
Proof.
  intros H. unfold Cache.clean, Cache._check_connection, bind, ret.
  destruct (_connection s), (_cursor s); cbn; rewrite ?H; reflexivity.
Qed.

(** C2 (as amended).  In an open scope, with a threshold of [days] days
    and the bytes of every selected entry on disk at a path of its own,
    [clean] returns and deletes the entries whose elapsed time since
    [updated_at] is greater than [days * 86400] seconds and no other: their
    rows and their files are removed, an entry whose elapsed time is exactly
    the threshold stays, and the expired-enumeration lists the entries that
    [clean] removes.  With no threshold [clean] returns and changes
    nothing. *)
Theorem C2_clean_deletes_expired (s : State) (days : Z) :
  scope_open s ->
  primary_key (visible s) ->
  NoDup (map (path_of s) (select_expired (clock s) (days * 86400) (visible s))) ->
  (forall r, In r (select_expired (clock s) (days * 86400) (visible s)) ->
             In (path_of s r) (files s)) ->
  (exists s1,
     Cache.clean (set_expire_days (Some days) s) = (Return tt, s1)
     /\ visible s1 = filter (fun r => negb (elapsed s r >? days * 86400)) (visible s)
     /\ files s1
        = without_paths
            (map (path_of s) (filter (fun r => elapsed s r >? days * 86400) (visible s)))
            (files s)
     /\ (forall r, In r (visible s) -> elapsed s r = days * 86400 -> In r (visible s1))
     /\ Cache.list_expired_caches (set_expire_days (Some days) s)
        = (Return (map (CachedFile.__init__ (cwd s))
                       (filter (fun r => elapsed s r >? days * 86400) (visible s))),
           set_expire_days (Some days) s))
  /\ Cache.clean (set_expire_days None s) = (Return tt, set_expire_days None s)
  /\ Cache.list_expired_caches (set_expire_days None s)
     = (Return [], set_expire_days None s).
Proof.
  intros [c [k [Hc Hk]]] Hpk Hnd Hin.
  rewrite (scope_open_visible _ _ Hc) in *.
  change (filter (fun r => elapsed s r >? days * 86400) (table c))
    with (select_expired (clock s) (days * 86400) (table c)).
  split; [|split].
  - rewrite (clean_eq (set_expire_days (Some days) s) c k Hc Hk).
    cbn [_expire_days set_expire_days clock cwd].
    rewrite (sweep_all _ (set_expire_days (Some days) s) c k Hc Hk).
    + eexists. split; [reflexivity|].
      match goal with |- visible ?s1 = _ /\ _ =>
        assert (Hv : visible s1
                     = filter (fun r => negb (elapsed s r >? days * 86400)) (table c))
      end.
      { unfold visible.
        cbn [_connection set_files set_connection set_expire_days table files].
        rewrite entries_ids. unfold select_expired.
        now rewrite (without_selected_ids _ _ Hpk). }
      split; [exact Hv|]. split; [|split].
      * cbn [files set_files set_connection set_expire_days].
        now rewrite entries_paths.
      * intros r Hr E. rewrite Hv. apply filter_In. split; [exact Hr|].
        rewrite E, Z.gtb_ltb, Z.ltb_irrefl. reflexivity.
      * unfold Cache.list_expired_caches, Cache._get_connection, bind.
        cbn [_connection set_expire_days]. rewrite Hc. reflexivity.
    + rewrite entries_paths. exact Hnd.
    + rewrite entries_paths. intros p Hp. apply in_map_iff in Hp.
      destruct Hp as [r [<- Hr]]. now apply Hin.
  - now rewrite (clean_eq (set_expire_days None s) c k Hc Hk).
  - unfold Cache.list_expired_caches, Cache._get_connection, bind.
    cbn [_connection set_expire_days]. rewrite Hc. reflexivity.
Qed.

Ltac nodup_concrete :=
  vm_compute;
  repeat (apply NoDup_cons; [ cbn; intuition discriminate | ]);
  apply NoDup_nil.

Ltac in_concrete :=
  vm_compute; repeat (first [ left; reflexivity | right ]).

Lemma C2_witness :
  scope_open stale_on_disk
  /\ primary_key (visible stale_on_disk)
  /\ (exists s1,
        Cache.clean (set_expire_days (Some 1) stale_on_disk) = (Return tt, s1)
        /\ visible s1 = []
        /\ files s1 = []
        /\ Cache.list_expired_caches (set_expire_days (Some 1) stale_on_disk)
           = (Return (map (CachedFile.__init__ (cwd stale_on_disk)) [row_a; row_b; row_c]),
              set_expire_days (Some 1) stale_on_disk))
  /\ Cache.clean (set_expire_days None stale_on_disk)
     = (Return tt, set_expire_days None stale_on_disk).
Proof.
  assert (Hs : scope_open stale_on_disk) by (unfold scope_open; vm_compute; eauto).
  assert (Hpk : primary_key (visible stale_on_disk)) by (unfold primary_key; nodup_concrete).
  assert (Hnd : NoDup (map (path_of stale_on_disk)
                           (select_expired (clock stale_on_disk) (1 * 86400)
                                           (visible stale_on_disk))))
    by nodup_concrete.
  assert (Hin : forall r,
             In r (select_expired (clock stale_on_disk) (1 * 86400) (visible stale_on_disk)) ->
             In (path_of stale_on_disk r) (files stale_on_disk)).
  { intros r Hr. vm_compute in Hr.
    destruct Hr as [<-|[<-|[<-|[]]]]; in_concrete. }
  split; [exact Hs|]. split; [exact Hpk|].
  destruct (C2_clean_deletes_expired stale_on_disk 1 Hs Hpk Hnd Hin)
    as [[s1 [E [Hv [Hf [_ Hl]]]]] [En _]].
  split; [|exact En].
  exists s1. split; [exact E|]. split; [rewrite Hv; reflexivity|].
  split; [rewrite Hf; reflexivity | exact Hl].
Defined.

(** C2, the claim as stated, fails where the bytes of an expired entry are
    not on disk, which is the state of every entry between [add] and its
    download: after three adds and two days, with a threshold of one day,
    [clean] raises [FileNotFoundError] at the first entry and the second
    entry, as old as the first, is still in the catalog. *)
Lemma C2_counterexample :
  scope_open stale
  /\ _expire_days stale = Some 1
  /\ In row_b (visible stale)
  /\ elapsed stale row_b > 1 * 86400
  /\ fst (Cache.clean stale) = Raise (FileNotFoundError (path_of stale row_a))
  /\ In row_b (visible (snd (Cache.clean stale))).
Proof.
  split; [unfold scope_open; vm_compute; eauto|].
  split; [reflexivity|].
  split; [in_concrete|].
  split; [reflexivity|].
  split; [vm_compute; reflexivity | in_concrete].
Qed.

(** C10.  With a threshold configured, [clean] deletes the selected entries
    one at a time in the order of the enumeration and stops at the first
    one whose file is missing: it raises [FileNotFoundError] for that
    entry, the entries before it are gone (rows and files), the row of the
    failing entry has been removed, every entry after it is still in the
    catalog, and leaving the scope commits that table. *)
Theorem C10_sweep_stops_at_first_failure
  (s : State) (days : Z) (pre post : list Row) (x : Row) :
  scope_open s ->
  _expire_days s = Some days ->
  primary_key (visible s) ->
  select_expired (clock s) (days * 86400) (visible s) = pre ++ x :: post ->
  NoDup (map (path_of s) pre) ->
  (forall r, In r pre -> In (path_of s r) (files s)) ->
  ~ In (path_of s x) (files s) ->
  exists s1 s2,
    Cache.clean s = (Raise (FileNotFoundError (path_of s x)), s1)
    /\ visible s1 = without_ids (map row_id pre ++ [row_id x]) (visible s)
    /\ files s1 = without_paths (map (path_of s) pre) (files s)
    /\ (forall r, In r pre -> ~ In r (visible s1) /\ ~ In (path_of s r) (files s1))
    /\ (forall r, In r post -> In r (visible s1))
    /\ Cache.__exit__ s1 = (Return true, s2)
    /\ database s2 = visible s1.
Proof.
  intros Hs Hd Hpk Hsel Hnd Hin Hx. pose proof Hs as [c [k [Hc Hk]]].
  rewrite (scope_open_visible _ _ Hc) in *.
  rewrite (clean_eq s c k Hc Hk), Hd, Hsel, map_app. cbn [map].
  rewrite (sweep_stops _ _ _ s c k Hc Hk);
    [ | now rewrite entries_paths
      | rewrite entries_paths; intros p Hp; apply in_map_iff in Hp;
        destruct Hp as [r [<- Hr]]; now apply Hin
      | exact Hx ].
  rewrite entries_paths, entries_ids.
  cbn [CachedFile.local_path CachedFile.id CachedFile.__init__].
  fold (path_of s x).
  match goal with |- exists s1 s2, (_, ?st) = _ /\ _ => set (s1 := st) end.
  assert (Hs1 : scope_open s1) by (unfold scope_open, s1; cbn; eauto).
  exists s1, (set_connection None None (set_database (visible s1) s1)).
  split; [reflexivity|]. split; [reflexivity|]. split; [reflexivity|].
  assert (Hv : visible s1 = without_ids (map row_id pre ++ [row_id x]) (table c))
    by reflexivity.
  assert (Hf : files s1 = without_paths (map (path_of s) pre) (files s))
    by reflexivity.
  split; [|split; [|split]].
  - intros r Hr. rewrite Hv, Hf, in_without_ids, in_without_paths. split.
    + intros [_ H]. apply H. apply in_or_app. left. now apply in_map.
    + intros [_ H]. apply H. now apply in_map.
  - intros r Hr. rewrite Hv, in_without_ids. split.
    + assert (H : In r (select_expired (clock s) (days * 86400) (table c))).
      { rewrite Hsel. apply in_or_app. right. now right. }
      apply filter_In in H. tauto.
    + apply (NoDup_map_later row_id pre post x r); [|exact Hr].
      rewrite <- Hsel. now apply NoDup_map_filter.
  - apply exit_eq, Hs1.
  - reflexivity.
Qed.

Lemma C10_witness :
  scope_open stale_first_on_disk
  /\ _expire_days stale_first_on_disk = Some 1
  /\ select_expired (clock stale_first_on_disk) (1 * 86400) (visible stale_first_on_disk)
     = [row_a] ++ row_b :: [row_c]
  /\ In (path_of stale_first_on_disk row_a) (files stale_first_on_disk)
  /\ ~ In (path_of stale_first_on_disk row_b) (files stale_first_on_disk)
  /\ exists s1 s2,
    Cache.clean stale_first_on_disk
      = (Raise (FileNotFoundError (path_of stale_first_on_disk row_b)), s1)
    /\ visible s1 = [row_c]
    /\ files s1 = []
    /\ Cache.__exit__ s1 = (Return true, s2)
    /\ database s2 = [row_c].
Proof.
  assert (Hs : scope_open stale_first_on_disk)
    by (unfold scope_open; vm_compute; eauto).
  assert (Hpk : primary_key (visible stale_first_on_disk))
    by (unfold primary_key; nodup_concrete).
  assert (Hsel : select_expired (clock stale_first_on_disk) (1 * 86400)
                                (visible stale_first_on_disk)
                 = [row_a] ++ row_b :: [row_c]) by (vm_compute; reflexivity).
  assert (Hnd : NoDup (map (path_of stale_first_on_disk) [row_a])) by nodup_concrete.
  assert (Ha : In (path_of stale_first_on_disk row_a) (files stale_first_on_disk))
    by in_concrete.
  assert (Hin : forall r, In r [row_a] ->
                  In (path_of stale_first_on_disk r) (files stale_first_on_disk)).
  { intros r [<-|[]]. exact Ha. }
  assert (Hb : ~ In (path_of stale_first_on_disk row_b) (files stale_first_on_disk))
    by (vm_compute; intros [H|[]]; discriminate H).
  split; [exact Hs|]. split; [reflexivity|]. split; [exact Hsel|].
  split; [exact Ha|]. split; [exact Hb|].
  destruct (C10_sweep_stops_at_first_failure
              stale_first_on_disk 1 [row_a] [row_c] row_b
              Hs eq_refl Hpk Hsel Hnd Hin Hb)
    as [s1 [s2 [E [Hv [Hf [_ [_ [Hx Hd]]]]]]]].
  exists s1, s2. split; [exact E|].
  split; [rewrite Hv; vm_compute; reflexivity|].
  split; [rewrite Hf; vm_compute; reflexivity|].
  split; [exact Hx|]. rewrite Hd, Hv. vm_compute. reflexivity.
Defined.

(* ================================================================== *)
(** ** Adding several urls *)










(* ================================================================== *)
(** ** Lookups and membership *)

Lemma select_by_url_has_url (u : string) (t : list Row) :
  has_url u t = match select_by_url u t with [] => false | _ :: _ => true end.
Proof.
  unfold has_url, select_by_url. induction t as [|r t IH]; cbn [existsb filter];
    [reflexivity|].
  destruct (String.eqb (row_url r) u); [reflexivity | exact IH].
Qed.

Lemma contains_is_membership_aux (s : State) (u : string) :
  Cache.__contains__ u s = (Return (has_url u (visible s)), s).
Proof.
  unfold Cache.__contains__. rewrite by_url_eq, select_by_url_has_url.
  now destruct (select_by_url u (visible s)).
Qed.

(** X1.  [url in cache] never raises and never changes the state: it
    returns whether some row that a lookup sees has that url.  Only the
    not-found error of [by_url] is caught, and [by_url] raises no other. *)
Theorem contains_is_membership (s : State) (u : string) :
  Cache.__contains__ u s = (Return (has_url u (visible s)), s).
Proof.
  unfold Cache.__contains__. rewrite by_url_eq.
  destruct (select_by_url u (visible s)) as [|r rows] eqn:E.
  - rewrite select_by_url_has_url, E. reflexivity.
  - rewrite select_by_url_has_url, E. reflexivity.
Qed.

(** X3.  Outside any scope, for a url that the database does not hold:
    [url in cache] is false; [with cache: cache.add(url)] returns an entry
    and leaves no scope open; after it [url in cache] is true. *)
Theorem contains_after_add (s : State) (u : string) :
  _connection s = None ->
  has_url u (database s) = false ->
  Cache.__contains__ u s = (Return false, s)
  /\ exists e s1,
       Cache.with_cache (Cache.add u) s = (Return (Some e), s1)
       /\ _connection s1 = None
       /\ database s1 = database s ++ [new_row (in_scope s) u]
       /\ Cache.__contains__ u s1 = (Return true, s1).
Proof.
  intros Hc Hu. split.
  - rewrite contains_is_membership_aux. unfold visible. now rewrite Hc, Hu.
  - destruct (add_new (in_scope s) u (enter_open s) Hu)
      as [s1 [E [Hv [Hs1 _]]]].
    change (visible (in_scope s)) with (database s) in Hv.
    exists (CachedFile.__init__ (cwd (in_scope s)) (new_row (in_scope s) u)),
           (set_connection None None (set_database (visible s1) s1)).
    rewrite with_cache_eq by (rewrite E; exact Hs1). rewrite E.
    split; [reflexivity|]. split; [reflexivity|].
    split; [cbn [database set_connection set_database]; exact Hv|].
    rewrite contains_is_membership_aux. unfold visible at 1.
    cbn [_connection set_connection database set_database].
    rewrite Hv, has_url_app. unfold has_url at 2. cbn.
    now rewrite String.eqb_refl, orb_true_r.
Qed.

Lemma contains_after_add_witness :
  let s := fresh "/cache/artifacts" None in
  _connection s = None /\ has_url url_a (database s) = false
  /\ Cache.__contains__ url_a s = (Return false, s)
  /\ exists e s1,
       Cache.with_cache (Cache.add url_a) s = (Return (Some e), s1)
       /\ _connection s1 = None
       /\ database s1 = database s ++ [new_row (in_scope s) url_a]
       /\ Cache.__contains__ url_a s1 = (Return true, s1).
Proof.
  cbv zeta. split; [reflexivity|]. split; [reflexivity|].
  exact (contains_after_add (fresh "/cache/artifacts" None) url_a eq_refl eq_refl).
Defined.

(* ================================================================== *)
(** ** How [add], [delete] and [list] compose *)

Lemma delete_by_id_absent (i : Z) (t : list Row) :
  (forall r, In r t -> row_id r <> i) -> delete_by_id i t = t.
Proof.
  unfold delete_by_id. induction t as [|r t IH]; intros H; cbn [filter]; [reflexivity|].
  destruct (Z.eqb_spec (row_id r) i) as [E|_]; cbn [negb].
  - exfalso. apply (H r); [now left | exact E].
  - rewrite IH; [reflexivity|]. intros r' Hr'. apply H. now right.
Qed.

Lemma delete_by_id_newest (t : list Row) (r : Row) :
  row_id r = next_rowid t -> delete_by_id (row_id r) (t ++ [r]) = t.
Proof.
  intros E. unfold delete_by_id. rewrite filter_app. cbn [filter].
  rewrite Z.eqb_refl. cbn [negb]. rewrite app_nil_r.
  apply delete_by_id_absent. intros r' Hr'. apply next_rowid_fresh in Hr'. lia.
Qed.

Lemma delete_visible (s : State) (item : CachedFile) :
  scope_open s ->
  visible (snd (Cache.delete item s)) = delete_by_id (CachedFile.id item) (visible s)
  /\ scope_open (snd (Cache.delete item s))
  /\ database (snd (Cache.delete item s)) = database s
  /\ cwd (snd (Cache.delete item s)) = cwd s
  /\ clock (snd (Cache.delete item s)) = clock s
  /\ _expire_days (snd (Cache.delete item s)) = _expire_days s.
Proof.
  intros [c [k [Hc Hk]]]. rewrite (scope_open_visible _ _ Hc).
  rewrite (delete_eq _ _ _ _ Hc Hk). cbv zeta.
  destruct (existsb _ (files s)); unfold visible, scope_open; cbn; eauto 10.
Qed.

(** X4.  [add] writes nothing to disk and nothing to the database file: the
    files and the committed rows are as before it.  Deleting the entry that
    [add] returned puts the table back as it was before the [add]; when no
    file was at its path, that [delete] raises [FileNotFoundError]. *)
Theorem add_then_delete_restores_table (s : State) (u : string) :
  scope_open s -> has_url u (visible s) = false ->
  exists e s1,
    Cache.add u s = (Return e, s1)
    /\ files s1 = files s
    /\ database s1 = database s
    /\ visible (snd (Cache.delete e s1)) = visible s
    /\ (~ In (CachedFile.local_path e) (files s) ->
        fst (Cache.delete e s1) = Raise (FileNotFoundError (CachedFile.local_path e))).
Proof.
  intros Hs Hu.
  destruct (add_new s u Hs Hu) as [s1 [E [Hv [Hs1 [Hd [Hf _]]]]]].
  exists (CachedFile.__init__ (cwd s) (new_row s u)), s1.
  split; [exact E|]. split; [exact Hf|]. split; [exact Hd|]. split.
  - destruct (delete_visible s1 (CachedFile.__init__ (cwd s) (new_row s u)) Hs1)
      as [-> _].
    rewrite Hv. now apply (delete_by_id_newest (visible s) (new_row s u)).
  - intros Hno. destruct Hs1 as [c [k [Hc Hk]]].
    rewrite (delete_eq _ _ _ _ Hc Hk). cbv zeta. rewrite Hf.
    rewrite <- existsb_eqb_In in Hno. apply not_true_iff_false in Hno.
    now rewrite Hno.
Qed.

Lemma add_then_delete_restores_table_witness :
  scope_open opened /\ has_url url_a (visible opened) = false
  /\ exists e s1,
    Cache.add url_a opened = (Return e, s1)
    /\ files s1 = files opened
    /\ database s1 = database opened
    /\ visible (snd (Cache.delete e s1)) = visible opened
    /\ (~ In (CachedFile.local_path e) (files opened) ->
        fst (Cache.delete e s1) = Raise (FileNotFoundError (CachedFile.local_path e))).
Proof.
  split; [apply enter_open|]. split; [reflexivity|].
  exact (add_then_delete_restores_table opened url_a (enter_open _) eq_refl).
Defined.

(** X5.  The id of a new entry is larger than every id in the catalog, and
    ids are given out again: after the newest entry is deleted (whether or
    not its file was there), the next [add] returns an entry with the id of
    the deleted one. *)
Theorem add_reuses_id_of_deleted_newest (s : State) (u u' : string) :
  scope_open s ->
  has_url u (visible s) = false -> has_url u' (visible s) = false ->
  exists e s1 e' s3,
    Cache.add u s = (Return e, s1)
    /\ (forall r, In r (visible s) -> row_id r < CachedFile.id e)
    /\ Cache.add u' (snd (Cache.delete e s1)) = (Return e', s3)
    /\ CachedFile.id e' = CachedFile.id e.
Proof.
  intros Hs Hu Hu'.
  destruct (add_new s u Hs Hu) as [s1 [E [Hv [Hs1 _]]]].
  set (e := CachedFile.__init__ (cwd s) (new_row s u)) in *.
  destruct (delete_visible s1 e Hs1) as [Hv2 [Hs2 _]].
  assert (Hback : visible (snd (Cache.delete e s1)) = visible s).
  { rewrite Hv2, Hv. now apply (delete_by_id_newest (visible s) (new_row s u)). }
  destruct (add_new (snd (Cache.delete e s1)) u' Hs2) as [s3 [E3 _]].
  { now rewrite Hback. }
  exists e, s1, (CachedFile.__init__ (cwd (snd (Cache.delete e s1)))
                   (new_row (snd (Cache.delete e s1)) u')), s3.
  split; [exact E|]. split; [|split; [exact E3|]].
  - intros r Hr. now apply next_rowid_fresh.
  - cbn. now rewrite Hback.
Qed.

Lemma add_reuses_id_of_deleted_newest_witness :
  scope_open three_added
  /\ has_url url_d (visible three_added) = false
  /\ exists e s1 e' s3,
    Cache.add url_d three_added = (Return e, s1)
    /\ (forall r, In r (visible three_added) -> row_id r < CachedFile.id e)
    /\ Cache.add url_d (snd (Cache.delete e s1)) = (Return e', s3)
    /\ CachedFile.id e' = CachedFile.id e.
Proof.
  assert (Hs : scope_open three_added) by (unfold scope_open; vm_compute; eauto).
  split; [exact Hs|]. split; [reflexivity|].
  exact (add_reuses_id_of_deleted_newest three_added url_d url_d Hs eq_refl eq_refl).
Defined.

Lemma delete_by_id_length (t : list Row) (r : Row) :
  primary_key t -> In r t ->
  S (List.length (delete_by_id (row_id r) t)) = List.length t.
Proof.
  unfold primary_key, delete_by_id.
  induction t as [|a t IH]; cbn [map filter List.length]; intros Hpk Hr; [contradiction|].
  inversion Hpk as [|? ? Hn Hpk']; subst.
  destruct Hr as [->|Hr].
  - rewrite Z.eqb_refl. cbn [negb]. f_equal.
    fold (delete_by_id (row_id r) t). rewrite delete_by_id_absent; [reflexivity|].
    intros r' Hr' E. apply Hn. rewrite <- E. now apply in_map.
  - destruct (Z.eqb_spec (row_id a) (row_id r)) as [E|_]; cbn [negb List.length].
    + exfalso. apply Hn. rewrite E. now apply in_map.
    + f_equal. now apply IH.
Qed.

(** X6.  Under the primary key, in an open scope, [delete] of an entry of
    the catalog whose file is on disk returns, and [list()] then has one
    entry fewer: the deleted id is not listed any more and every entry
    with another id still is. *)
Theorem delete_removes_one_from_list (s : State) (r : Row) :
  scope_open s -> primary_key (visible s) ->
  In r (visible s) -> In (path_of s r) (files s) ->
  exists s1 before after,
    Cache.delete (CachedFile.__init__ (cwd s) r) s = (Return tt, s1)
    /\ Cache.list s = (Return before, s)
    /\ Cache.list s1 = (Return after, s1)
    /\ List.length before = S (List.length after)
    /\ (forall e, In e after -> CachedFile.id e <> row_id r)
    /\ (forall e, In e before -> CachedFile.id e <> row_id r -> In e after).
Proof.
  intros Hs Hpk Hr Hf. pose proof Hs as [c [k [Hc Hk]]].
  set (item := CachedFile.__init__ (cwd s) r).
  pose proof (delete_visible s item Hs) as [Hv [_ [_ [Hcwd _]]]].
  assert (E : Cache.delete item s = (Return tt, snd (Cache.delete item s))).
  { rewrite (delete_eq _ _ _ _ Hc Hk). cbv zeta.
    apply existsb_eqb_In in Hf. unfold item, path_of in *.
    cbn [CachedFile.local_path CachedFile.__init__]. now rewrite Hf. }
  exists (snd (Cache.delete item s)),
         (map (CachedFile.__init__ (cwd s)) (visible s)),
         (map (CachedFile.__init__ (cwd s)) (delete_by_id (row_id r) (visible s))).
  split; [exact E|]. split; [apply list_eq|]. split.
  { rewrite list_eq, Hv, Hcwd. reflexivity. }
  split.
  { rewrite !length_map. symmetry. now apply delete_by_id_length. }
  split.
  - intros e He. apply in_map_iff in He. destruct He as [r' [<- Hr']].
    apply filter_In in Hr'. destruct Hr' as [_ Hne]. cbn.
    now destruct (Z.eqb_spec (row_id r') (row_id r)).
  - intros e He Hne. apply in_map_iff in He. destruct He as [r' [<- Hr']].
    apply in_map. apply filter_In. split; [exact Hr'|].
    cbn in Hne. now destruct (Z.eqb_spec (row_id r') (row_id r)).
Qed.

Lemma delete_removes_one_from_list_witness :
  scope_open stale_first_on_disk /\ primary_key (visible stale_first_on_disk)
  /\ In row_a (visible stale_first_on_disk)
  /\ In (path_of stale_first_on_disk row_a) (files stale_first_on_disk)
  /\ exists s1 before after,
    Cache.delete (CachedFile.__init__ (cwd stale_first_on_disk) row_a) stale_first_on_disk
      = (Return tt, s1)
    /\ Cache.list stale_first_on_disk = (Return before, stale_first_on_disk)
    /\ Cache.list s1 = (Return after, s1)
    /\ List.length before = S (List.length after)
    /\ (forall e, In e after -> CachedFile.id e <> row_id row_a)
    /\ (forall e, In e before -> CachedFile.id e <> row_id row_a -> In e after).
Proof.
  assert (Hs : scope_open stale_first_on_disk)
    by (unfold scope_open; vm_compute; eauto).
  assert (Hpk : primary_key (visible stale_first_on_disk))
    by (unfold primary_key; nodup_concrete).
  assert (Hr : In row_a (visible stale_first_on_disk)) by in_concrete.
  assert (Hf : In (path_of stale_first_on_disk row_a) (files stale_first_on_disk))
    by in_concrete.
  split; [exact Hs|]. split; [exact Hpk|]. split; [exact Hr|]. split; [exact Hf|].
  exact (delete_removes_one_from_list stale_first_on_disk row_a Hs Hpk Hr Hf).
Defined.

(* ================================================================== *)
(** ** The constraints of the schema are kept *)

Lemma NoDup_snoc {A} (l : list A) (x : A) :
  NoDup l -> ~ In x l -> NoDup (l ++ [x]).
Proof.
  induction l as [|a l IH]; cbn [app]; intros Hl Hx.
  - constructor; [tauto | constructor].
  - inversion Hl as [|? ? Hn Hl']; subst. constructor.
    + intros H. apply in_app_or in H. destruct H as [H|[H|[]]]; [tauto|].
      apply Hx. now left.
    + apply IH; [exact Hl'|]. intros H. apply Hx. now right.
Qed.

Lemma insert_keeps_constraints (t : list Row) (r : Row) :
  primary_key t -> unique_url t ->
  row_id r = next_rowid t -> has_url (row_url r) t = false ->
  primary_key (t ++ [r]) /\ unique_url (t ++ [r]).
Proof.
  unfold primary_key, unique_url. intros Hpk Hu Hid Hurl.
  rewrite !map_app. cbn [map]. split; apply NoDup_snoc; auto.
  - intros H. apply in_map_iff in H. destruct H as [r' [E Hr']].
    apply next_rowid_fresh in Hr'. lia.
  - now apply has_url_false.
Qed.

Lemma delete_keeps_constraints (i : Z) (t : list Row) :
  primary_key t -> unique_url t ->
  primary_key (delete_by_id i t) /\ unique_url (delete_by_id i t).
Proof.
  unfold primary_key, unique_url, delete_by_id. split; now apply NoDup_map_filter.
Qed.

Lemma sweep_keeps_constraints (items : list CachedFile) :
  forall s, scope_open s -> primary_key (visible s) -> unique_url (visible s) ->
  primary_key (visible (snd (for_each items Cache.delete s)))
  /\ unique_url (visible (snd (for_each items Cache.delete s)))
  /\ database (snd (for_each items Cache.delete s)) = database s.
Proof.
  induction items as [|item items IH]; intros s Hs Hpk Hu; [now cbn|].
  cbn [for_each]. unfold bind.
  destruct (delete_visible s item Hs) as [Hv [Hs' [Hd _]]].
  destruct (delete_keeps_constraints (CachedFile.id item) _ Hpk Hu) as [Hpk' Hu'].
  rewrite <- Hv in Hpk', Hu'.
  destruct (Cache.delete item s) as [[[]|e] s']; cbn [snd] in *.
  - destruct (IH s' Hs' Hpk' Hu') as [H1 [H2 H3]]. rewrite H3. auto.
  - auto.
Qed.

Lemma perform_keeps_constraints (c : call) (s : State) :
  scope_open s -> primary_key (visible s) -> unique_url (visible s) ->
  primary_key (visible (snd (perform c s)))
  /\ unique_url (visible (snd (perform c s)))
  /\ database (snd (perform c s)) = database s.
Proof.
  intros Hs Hpk Hu. pose proof Hs as [cn [k [Hc Hk]]].
  destruct c as [u|item|i|u|item| |]; cbn [perform]; unfold bind, ret.
  - destruct (has_url u (visible s)) eqn:Hurl.
    + destruct (add_duplicate s u Hs Hurl) as [s1 [E [Hv [_ [Hd _]]]]].
      rewrite E. cbn [snd]. rewrite Hv. auto.
    + destruct (add_new s u Hs Hurl) as [s1 [E [Hv [_ [Hd _]]]]].
      rewrite E. cbn [snd]. rewrite Hv.
      destruct (insert_keeps_constraints (visible s) (new_row s u) Hpk Hu eq_refl Hurl).
      auto.
  - rewrite (update_eq _ _ _ _ Hc Hk). auto.
  - rewrite by_id_eq. destruct (select_by_id i (visible s)); auto.
  - rewrite by_url_eq. destruct (select_by_url u (visible s)); auto.
  - destruct (delete_visible s item Hs) as [Hv [_ [Hd _]]]. rewrite Hv.
    destruct (delete_keeps_constraints (CachedFile.id item) _ Hpk Hu). auto.
  - rewrite (clean_eq _ _ _ Hc Hk). destruct (_expire_days s); [|auto].
    now apply sweep_keeps_constraints.
  - rewrite list_eq. auto.
Qed.

Lemma script_keeps_constraints (calls : list call) :
  forall s, scope_open s -> primary_key (visible s) -> unique_url (visible s) ->
  primary_key (visible (snd (script calls s)))
  /\ unique_url (visible (snd (script calls s)))
  /\ database (snd (script calls s)) = database s.
Proof.
  unfold script. induction calls as [|c calls IH]; intros s Hs Hpk Hu; [now cbn|].
  cbn [for_each]. unfold bind.
  pose proof (perform_keeps_scope c s Hs) as Hs'.
  destruct (perform_keeps_constraints c s Hs Hpk Hu) as [Hpk' [Hu' Hd]].
  destruct (perform c s) as [[[]|e] s']; cbn [snd] in *.
  - destruct (IH s' Hs' Hpk' Hu') as [H1 [H2 H3]]. rewrite H3. auto.
  - auto.
Qed.

(** X7.  Whatever calls are made in a scope, and whether the body returns
    or raises, what is committed when the scope is left (by the [with]
    statement or by [tx]) has pairwise distinct ids and pairwise distinct
    urls, provided the database had before.  Nothing is committed before the
    scope is left: while the body runs the database is as it was. *)
Theorem scope_keeps_schema_constraints (s : State) (calls : list call) :
  primary_key (database s) -> unique_url (database s) ->
  database (snd (script calls (in_scope s))) = database s
  /\ primary_key (database (snd (Cache.with_cache (script calls) s)))
  /\ unique_url (database (snd (Cache.with_cache (script calls) s)))
  /\ primary_key (database (snd (Cache.tx (script calls) s)))
  /\ unique_url (database (snd (Cache.tx (script calls) s))).
Proof.
  intros Hpk Hu.
  destruct (script_keeps_constraints calls (in_scope s) (enter_open s) Hpk Hu)
    as [H1 [H2 H3]].
  rewrite with_cache_eq by (apply script_keeps_scope, enter_open).
  rewrite tx_eq by (apply script_keeps_scope, enter_open).
  cbn [snd database set_connection set_database]. auto.
Qed.

Lemma scope_keeps_schema_constraints_witness :
  let calls := [Add url_d; Clean; Add url_a; List] in
  primary_key (database committed_on_disk) /\ unique_url (database committed_on_disk)
  /\ database (snd (script calls (in_scope committed_on_disk))) = database committed_on_disk
  /\ primary_key (database (snd (Cache.with_cache (script calls) committed_on_disk)))
  /\ unique_url (database (snd (Cache.with_cache (script calls) committed_on_disk)))
  /\ primary_key (database (snd (Cache.tx (script calls) committed_on_disk)))
  /\ unique_url (database (snd (Cache.tx (script calls) committed_on_disk))).
Proof.
  cbv zeta.
  assert (Hpk : primary_key (database committed_on_disk))
    by (unfold primary_key; nodup_concrete).
  assert (Hu : unique_url (database committed_on_disk))
    by (unfold unique_url; nodup_concrete).
  split; [exact Hpk|]. split; [exact Hu|].
  exact (scope_keeps_schema_constraints committed_on_disk _ Hpk Hu).
Defined.

(* ================================================================== *)
(** ** What [clean] leaves alone *)

Lemma delete_keeps_file (s : State) (item : CachedFile) (p : string) :
  scope_open s -> In p (files s) -> CachedFile.local_path item <> p ->
  In p (files (snd (Cache.delete item s))).
Proof.
  intros [c [k [Hc Hk]]] Hp Hne. rewrite (delete_eq _ _ _ _ Hc Hk). cbv zeta.
  destruct (existsb _ (files s)); cbn [snd files set_files set_connection]; [|exact Hp].
  apply in_without_paths. split; [exact Hp|]. intros [E|[]]. now apply Hne.
Qed.

Lemma sweep_spares (items : list CachedFile) :
  forall s, scope_open s ->
  (forall r, In r (visible s) ->
             (forall item, In item items -> CachedFile.id item <> row_id r) ->
             In r (visible (snd (for_each items Cache.delete s))))
  /\ (forall p, In p (files s) ->
             (forall item, In item items -> CachedFile.local_path item <> p) ->
             In p (files (snd (for_each items Cache.delete s)))).
Proof.
  induction items as [|item items IH]; intros s Hs; [now cbn|].
  cbn [for_each]. unfold bind.
  destruct (delete_visible s item Hs) as [Hv [Hs' _]].
  pose proof (delete_keeps_file s item) as Hfile.
  destruct (Cache.delete item s) as [[[]|e] s']; cbn [snd] in *.
  - destruct (IH s' Hs') as [IHr IHp]. split.
    + intros r Hr Hids. apply IHr.
      * rewrite Hv. apply filter_In. split; [exact Hr|].
        specialize (Hids item (or_introl eq_refl)).
        destruct (Z.eqb_spec (row_id r) (CachedFile.id item)); [congruence | reflexivity].
      * intros it Hit. apply Hids. now right.
    + intros p Hp Hps. apply IHp.
      * apply Hfile; [exact Hs | exact Hp | apply Hps; now left].
      * intros it Hit. apply Hps. now right.
  - split.
    + intros r Hr Hids. rewrite Hv. apply filter_In. split; [exact Hr|].
      specialize (Hids item (or_introl eq_refl)).
      destruct (Z.eqb_spec (row_id r) (CachedFile.id item)); [congruence | reflexivity].
    + intros p Hp Hps. apply Hfile; [exact Hs | exact Hp | apply Hps; now left].
Qed.

(** X8.  Under the primary key, [clean] in an open scope, whether it
    returns or raises, removes no entry whose elapsed time is at most the
    threshold, and removes no file other than at the path of an entry whose
    elapsed time is above it. *)
Theorem clean_spares_unexpired (s : State) (days : Z) :
  scope_open s -> primary_key (visible s) -> _expire_days s = Some days ->
  (forall r, In r (visible s) -> elapsed s r <= days * 86400 ->
             In r (visible (snd (Cache.clean s))))
  /\ (forall p, In p (files s) ->
        (forall r, In r (visible s) -> elapsed s r > days * 86400 -> path_of s r <> p) ->
        In p (files (snd (Cache.clean s)))).
Proof.
  intros Hs Hpk Hd. pose proof Hs as [c [k [Hc Hk]]].
  rewrite (clean_eq _ _ _ Hc Hk), Hd.
  rewrite (scope_open_visible _ _ Hc) in *.
  destruct (sweep_spares
              (map (CachedFile.__init__ (cwd s))
                   (select_expired (clock s) (days * 86400) (table c))) s Hs)
    as [Hrows Hfiles].
  rewrite (scope_open_visible _ _ Hc) in Hrows.
  split.
  - intros r Hr Hage. apply Hrows; [exact Hr|].
    intros item Hitem E. apply in_map_iff in Hitem. destruct Hitem as [r' [<- Hr']].
    apply filter_In in Hr'. destruct Hr' as [Hin' Hexp]. cbn in E.
    assert (r' = r) by (eapply NoDup_map_inj; eauto). subst r'.
    unfold expired in Hexp. unfold elapsed in Hage. apply Z.gtb_lt in Hexp. lia.
  - intros p Hp Hpaths. apply Hfiles; [exact Hp|].
    intros item Hitem. apply in_map_iff in Hitem. destruct Hitem as [r' [<- Hr']].
    apply filter_In in Hr'. destruct Hr' as [Hin' Hexp].
    apply (Hpaths r' Hin'). unfold expired in Hexp. unfold elapsed.
    apply Z.gtb_lt in Hexp. lia.
Qed.

Lemma clean_spares_unexpired_witness :
  let row_d := nth 3 (visible mixed) (mkRow 0 "" "" 0 0) in
  scope_open mixed /\ primary_key (visible mixed) /\ _expire_days mixed = Some 1
  /\ In row_d (visible mixed) /\ elapsed mixed row_d <= 1 * 86400
  /\ fst (Cache.clean mixed) = Raise (FileNotFoundError (path_of mixed row_a))
  /\ In row_d (visible (snd (Cache.clean mixed))).
Proof.
  cbv zeta.
  assert (Hs : scope_open mixed) by (unfold scope_open; vm_compute; eauto).
  assert (Hpk : primary_key (visible mixed)) by (unfold primary_key; nodup_concrete).
  assert (Hr : In (nth 3 (visible mixed) (mkRow 0 "" "" 0 0)) (visible mixed))
    by in_concrete.
  assert (Hage : elapsed mixed (nth 3 (visible mixed) (mkRow 0 "" "" 0 0)) <= 1 * 86400)
    by (vm_compute; discriminate).
  split; [exact Hs|]. split; [exact Hpk|]. split; [reflexivity|].
  split; [exact Hr|]. split; [exact Hage|]. split; [vm_compute; reflexivity|].
  exact (proj1 (clean_spares_unexpired mixed 1 Hs Hpk eq_refl) _ Hr Hage).
Defined.

Lemma sweep_done (items : list CachedFile) :
  forall s s1, scope_open s ->
  for_each items Cache.delete s = (Return tt, s1) ->
  visible s1 = without_ids (map CachedFile.id items) (visible s)
  /\ scope_open s1 /\ clock s1 = clock s /\ cwd s1 = cwd s
  /\ _expire_days s1 = _expire_days s.
Proof.
  induction items as [|item items IH]; intros s s1 Hs E.
  - cbn in E. injection E as <-. rewrite without_ids_nil. auto.
  - cbn [for_each] in E. unfold bind in E.
    destruct (delete_visible s item Hs) as [Hv [Hs' [_ [Hcwd [Hclock Hexp]]]]].
    destruct (Cache.delete item s) as [[[]|e] s']; cbn [snd] in *; [|discriminate].
    destruct (IH s' s1 Hs' E) as [H1 [H2 [H3 [H4 H5]]]].
    cbn [map]. rewrite H1, Hv, without_ids_cons. repeat split; congruence.
Qed.

Lemma filter_none {A} (f : A -> bool) (l : list A) :
  (forall x, In x l -> f x = false) -> filter f l = [].
Proof.
  induction l as [|a l IH]; intros H; cbn [filter]; [reflexivity|].
  rewrite (H a (or_introl eq_refl)). apply IH. intros x Hx. apply H. now right.
Qed.

(** X9.  When [clean] has returned in an open scope, a second [clean] at
    the same time returns too and changes nothing: no entry above the
    threshold is left. *)
Theorem clean_again_is_no_op (s s1 : State) :
  scope_open s ->
  Cache.clean s = (Return tt, s1) ->
  Cache.clean s1 = (Return tt, s1)
  /\ forall days, _expire_days s = Some days ->
       forall r, In r (visible s1) -> elapsed s1 r <= days * 86400.
Proof.
  intros Hs E. pose proof Hs as [c [k [Hc Hk]]].
  rewrite (clean_eq _ _ _ Hc Hk) in E.
  destruct (_expire_days s) as [days|] eqn:Hd.
  - destruct (sweep_done _ s s1 Hs E) as [Hv [Hs1 [Hclock [Hcwd Hexp]]]].
    rewrite entries_ids, (scope_open_visible _ _ Hc) in Hv.
    assert (Hold : forall r, In r (visible s1) ->
                     expired (clock s) (days * 86400) r = false).
    { intros r Hr. rewrite Hv in Hr. apply in_without_ids in Hr.
      destruct Hr as [Hr Hid]. apply not_true_iff_false. intros Hx.
      apply Hid. apply in_map. apply filter_In. now split. }
    split.
    + pose proof Hs1 as [c1 [k1 [Hc1 Hk1]]].
      rewrite (clean_eq _ _ _ Hc1 Hk1), Hexp, Hd.
      rewrite <- (scope_open_visible _ _ Hc1), Hclock.
      unfold select_expired. now rewrite (filter_none _ _ Hold).
    + intros d Ed r Hr. injection Ed as <-. specialize (Hold r Hr).
      unfold expired in Hold. unfold elapsed. rewrite Hclock.
      rewrite Z.gtb_ltb in Hold. apply Z.ltb_ge in Hold. lia.
  - injection E as <-. split; [|discriminate].
    now rewrite (clean_eq _ _ _ Hc Hk), Hd.
Qed.

Lemma clean_again_is_no_op_witness :
  let s1 := snd (Cache.clean stale_on_disk) in
  scope_open stale_on_disk
  /\ Cache.clean stale_on_disk = (Return tt, s1)
  /\ Cache.clean s1 = (Return tt, s1)
  /\ forall days, _expire_days stale_on_disk = Some days ->
       forall r, In r (visible s1) -> elapsed s1 r <= days * 86400.
Proof.
  cbv zeta.
  assert (Hs : scope_open stale_on_disk) by (unfold scope_open; vm_compute; eauto).
  assert (E : Cache.clean stale_on_disk = (Return tt, snd (Cache.clean stale_on_disk)))
    by (vm_compute; reflexivity).
  split; [exact Hs|]. split; [exact E|].
  exact (clean_again_is_no_op stale_on_disk _ Hs E).
Defined.

(* ================================================================== *)
(** ** The deletion of [commands/remove.py] *)

(** X10.  From outside any scope, when the files of the chosen entries are
    all on disk at pairwise distinct paths, the deletion of [remove] ends
    with every chosen row deleted and committed, every chosen file removed
    and no scope open. *)
Theorem remove_chosen_deletes_all (s : State) (cached_files : list CachedFile) :
  NoDup (map CachedFile.local_path cached_files) ->
  (forall p, In p (map CachedFile.local_path cached_files) -> In p (files s)) ->
  exists s1,
    remove_chosen cached_files s = (Return (Some tt), s1)
    /\ database s1 = without_ids (map CachedFile.id cached_files) (database s)
    /\ files s1 = without_paths (map CachedFile.local_path cached_files) (files s)
    /\ _connection s1 = None /\ _cursor s1 = None.
Proof.
  intros Hnd Hin. unfold remove_chosen.
  assert (E := sweep_all cached_files (in_scope s) _ _ eq_refl eq_refl Hnd Hin).
  rewrite with_cache_eq by (rewrite E; unfold scope_open; cbn; eauto).
  rewrite E. eexists. split; [reflexivity|]. repeat split.
Qed.

Lemma remove_chosen_deletes_all_witness :
  let chosen := map (CachedFile.__init__ (cwd committed_on_disk)) [row_a; row_c] in
  NoDup (map CachedFile.local_path chosen)
  /\ exists s1,
    remove_chosen chosen committed_on_disk = (Return (Some tt), s1)
    /\ database s1 = [row_b]
    /\ files s1 = [path_of committed_on_disk row_b]
    /\ _connection s1 = None.
Proof.
  cbv zeta.
  assert (Hnd : NoDup (map CachedFile.local_path
                           (map (CachedFile.__init__ (cwd committed_on_disk))
                                [row_a; row_c]))) by nodup_concrete.
  assert (Hin : forall p,
             In p (map CachedFile.local_path
                       (map (CachedFile.__init__ (cwd committed_on_disk)) [row_a; row_c])) ->
             In p (files committed_on_disk)).
  { intros p Hp. vm_compute in Hp. destruct Hp as [<-|[<-|[]]]; in_concrete. }
  split; [exact Hnd|].
  destruct (remove_chosen_deletes_all committed_on_disk _ Hnd Hin)
    as [s1 [E [Hd [Hf [Hc _]]]]].
  exists s1. split; [exact E|].
  split; [rewrite Hd; vm_compute; reflexivity|].
  split; [rewrite Hf; vm_compute; reflexivity | exact Hc].
Defined.

(** X11.  When the file of one chosen entry is missing (those of the
    entries before it being on disk), the deletion of [remove] still ends
    without an exception: the rows of the entries up to and including that
    one are deleted and committed, and the entries chosen after it are
    neither deleted nor reported. *)
Theorem remove_chosen_stops_silently
  (s : State) (pre post : list CachedFile) (x : CachedFile) :
  NoDup (map CachedFile.local_path pre) ->
  (forall p, In p (map CachedFile.local_path pre) -> In p (files s)) ->
  ~ In (CachedFile.local_path x) (files s) ->
  exists s1,
    remove_chosen (pre ++ x :: post) s = (Return None, s1)
    /\ database s1
       = without_ids (map CachedFile.id pre ++ [CachedFile.id x]) (database s)
    /\ files s1 = without_paths (map CachedFile.local_path pre) (files s)
    /\ _connection s1 = None.
Proof.
  intros Hnd Hin Hx. unfold remove_chosen.
  assert (E := sweep_stops pre post x (in_scope s) _ _ eq_refl eq_refl Hnd Hin Hx).
  rewrite with_cache_eq by (rewrite E; unfold scope_open; cbn; eauto).
  rewrite E. eexists. split; [reflexivity|]. repeat split.
Qed.

Lemma remove_chosen_stops_silently_witness :
  let s := snd (Cache.__exit__ stale_first_on_disk) in
  let entry := CachedFile.__init__ (cwd s) in
  NoDup (map CachedFile.local_path [entry row_a])
  /\ In (CachedFile.local_path (entry row_a)) (files s)
  /\ ~ In (CachedFile.local_path (entry row_b)) (files s)
  /\ exists s1,
    remove_chosen ([entry row_a] ++ entry row_b :: [entry row_c]) s = (Return None, s1)
    /\ database s1 = [row_c]
    /\ _connection s1 = None.
Proof.
  cbv zeta.
  set (s := snd (Cache.__exit__ stale_first_on_disk)).
  assert (Hnd : NoDup (map CachedFile.local_path [CachedFile.__init__ (cwd s) row_a]))
    by nodup_concrete.
  assert (Ha : In (CachedFile.local_path (CachedFile.__init__ (cwd s) row_a)) (files s))
    by in_concrete.
  assert (Hin : forall p,
             In p (map CachedFile.local_path [CachedFile.__init__ (cwd s) row_a]) ->
             In p (files s)).
  { intros p [<-|[]]. exact Ha. }
  assert (Hb : ~ In (CachedFile.local_path (CachedFile.__init__ (cwd s) row_b)) (files s))
    by (vm_compute; intros [H|[]]; discriminate H).
  split; [exact Hnd|]. split; [exact Ha|]. split; [exact Hb|].
  destruct (remove_chosen_stops_silently s [CachedFile.__init__ (cwd s) row_a]
              [CachedFile.__init__ (cwd s) row_c] (CachedFile.__init__ (cwd s) row_b)
              Hnd Hin Hb) as [s1 [E [Hd [_ Hc]]]].
  exists s1. split; [exact E|].
  split; [rewrite Hd; vm_compute; reflexivity | exact Hc].
Defined.

(* ================================================================== *)
(** ** Generated names *)

Lemma hexdigit_is_hex (d : Z) : is_hex_char (uuid.hexdigit d) = true.
Proof.
  destruct d as [|p|p]; try reflexivity.
  do 5 (try destruct p as [p|p|]); reflexivity.
Qed.

Lemma hex_digits_are_hex (n : nat) :
  forall v acc,
    string_forallb is_hex_char acc = true ->
    string_forallb is_hex_char (uuid.hex_digits n v acc) = true.
Proof.
  induction n as [|n IH]; intros v acc Hacc; cbn [uuid.hex_digits]; [exact Hacc|].
  apply IH. cbn [string_forallb]. now rewrite hexdigit_is_hex, Hacc.
Qed.

(** X14.  [_generate_unique_filename] uses one draw of [os.urandom] and
    changes nothing else; it returns [cache_directory / name] where [name]
    has 32 characters, each of them one of [0123456789abcdef]: whatever the
    draw, the name has no separator and no dot. *)
Theorem generated_filename_is_hex (s : State) :
  exists name,
    Cache._generate_unique_filename s
      = (Return (Path.truediv (_cache_directory s) name), set_drawn (S (drawn s)) s)
    /\ String.length name = 32%nat
    /\ string_forallb is_hex_char name = true
    /\ Path.is_absolute name = false.
Proof.
  exists (drawn_name s (drawn s)). split; [reflexivity|].
  unfold drawn_name. split; [apply hex_length|]. split; [|apply hex_relative].
  unfold uuid.hex. now apply hex_digits_are_hex.
Qed.

(* ================================================================== *)
(** ** Edges of [delete] *)

(** X15.  [delete] is not idempotent: after a [delete] that returned, the
    same [delete] again raises [FileNotFoundError] and changes neither the
    table nor the files. *)
Theorem delete_twice_fails (s : State) (item : CachedFile) :
  scope_open s -> In (CachedFile.local_path item) (files s) ->
  exists s1 s2,
    Cache.delete item s = (Return tt, s1)
    /\ Cache.delete item s1
       = (Raise (FileNotFoundError (CachedFile.local_path item)), s2)
    /\ visible s2 = visible s1 /\ files s2 = files s1.
Proof.
  intros [c [k [Hc Hk]]] Hf.
  rewrite (delete_eq _ _ _ _ Hc Hk). cbv zeta.
  apply existsb_eqb_In in Hf. rewrite Hf.
  eexists. eexists. split; [reflexivity|].
  erewrite delete_eq; [| reflexivity | reflexivity]. cbv zeta.
  cbn [files set_files set_connection table].
  assert (Hgone : existsb (String.eqb (CachedFile.local_path item))
                    (without_paths [CachedFile.local_path item] (files s)) = false).
  { apply not_true_iff_false. rewrite existsb_eqb_In, in_without_paths.
    intros [_ H]. apply H. now left. }
  rewrite Hgone. split; [reflexivity|]. unfold visible.
  cbn [_connection set_files set_connection table files]. split; [|reflexivity].
  rewrite delete_by_id_absent; [reflexivity|].
  intros r Hr. apply filter_In in Hr. destruct Hr as [_ Hr].
  now destruct (Z.eqb_spec (row_id r) (CachedFile.id item)).
Qed.

Lemma delete_twice_fails_witness :
  let item := CachedFile.__init__ (cwd stale_first_on_disk) row_a in
  scope_open stale_first_on_disk
  /\ In (CachedFile.local_path item) (files stale_first_on_disk)
  /\ exists s1 s2,
    Cache.delete item stale_first_on_disk = (Return tt, s1)
    /\ Cache.delete item s1
       = (Raise (FileNotFoundError (CachedFile.local_path item)), s2)
    /\ visible s2 = visible s1 /\ files s2 = files s1.
Proof.
  cbv zeta.
  assert (Hs : scope_open stale_first_on_disk)
    by (unfold scope_open; vm_compute; eauto).
  assert (Hf : In (CachedFile.local_path
                     (CachedFile.__init__ (cwd stale_first_on_disk) row_a))
                  (files stale_first_on_disk)) by in_concrete.
  split; [exact Hs|]. split; [exact Hf|].
  exact (delete_twice_fails stale_first_on_disk _ Hs Hf).
Defined.

(** X16.  [delete] does not look whether a row matched: for an item whose
    id no row has, the table is left as it is, and the file at
    [item.local_path], when there is one, is removed all the same and the
    call returns. *)
Theorem delete_unknown_id_removes_file (s : State) (item : CachedFile) :
  scope_open s ->
  (forall r, In r (visible s) -> row_id r <> CachedFile.id item) ->
  In (CachedFile.local_path item) (files s) ->
  exists s1,
    Cache.delete item s = (Return tt, s1)
    /\ visible s1 = visible s
    /\ ~ In (CachedFile.local_path item) (files s1).
Proof.
  intros [c [k [Hc Hk]]] Hid Hf. rewrite (scope_open_visible _ _ Hc) in *.
  rewrite (delete_eq _ _ _ _ Hc Hk). cbv zeta.
  apply existsb_eqb_In in Hf. rewrite Hf. eexists. split; [reflexivity|].
  unfold visible. cbn [_connection set_files set_connection table files].
  rewrite (delete_by_id_absent _ _ Hid). split; [reflexivity|].
  rewrite in_without_paths. intros [_ H]. apply H. now left.
Qed.

Lemma delete_unknown_id_removes_file_witness :
  let item := CachedFile.mk 99 url_d (path_of stale_first_on_disk row_a) 0 0 in
  scope_open stale_first_on_disk
  /\ (forall r, In r (visible stale_first_on_disk) -> row_id r <> CachedFile.id item)
  /\ In (CachedFile.local_path item) (files stale_first_on_disk)
  /\ exists s1,
    Cache.delete item stale_first_on_disk = (Return tt, s1)
    /\ visible s1 = visible stale_first_on_disk
    /\ ~ In (CachedFile.local_path item) (files s1).
Proof.
  cbv zeta.
  assert (Hs : scope_open stale_first_on_disk)
    by (unfold scope_open; vm_compute; eauto).
  assert (Hid : forall r, In r (visible stale_first_on_disk) ->
                  row_id r <> CachedFile.id
                    (CachedFile.mk 99 url_d (path_of stale_first_on_disk row_a) 0 0)).
  { intros r Hr. vm_compute in Hr.
    destruct Hr as [<-|[<-|[<-|[]]]]; cbn; discriminate. }
  assert (Hf : In (CachedFile.local_path
                     (CachedFile.mk 99 url_d (path_of stale_first_on_disk row_a) 0 0))
                  (files stale_first_on_disk)) by in_concrete.
  split; [exact Hs|]. split; [exact Hid|]. split; [exact Hf|].
  exact (delete_unknown_id_removes_file stale_first_on_disk _ Hs Hid Hf).
Defined.

(* ================================================================== *)
(** ** The order of the rows *)

Lemma ascending_snoc (l : list Z) (x : Z) :
  ascending l -> (forall y, In y l -> y < x) -> ascending (l ++ [x]).
Proof.
  induction l as [|a l IH]; cbn [app ascending]; intros Hl Hx.
  - split; [intros y []| exact I].
  - destruct Hl as [Ha Hl]. split.
    + intros y Hy. apply in_app_or in Hy. destruct Hy as [Hy|[<-|[]]].
      * now apply Ha.
      * apply Hx. now left.
    + apply IH; [exact Hl|]. intros y Hy. apply Hx. now right.
Qed.

Lemma ascending_filter (f : Row -> bool) (t : list Row) :
  ascending_ids t -> ascending_ids (filter f t).
Proof.
  unfold ascending_ids. induction t as [|r t IH]; cbn [map filter ascending];
    intros H; [exact I|].
  destruct H as [Hr Ht]. destruct (f r); [|auto].
  cbn [map ascending]. split; [|auto].
  intros y Hy. apply Hr. apply in_map_iff in Hy. destruct Hy as [r' [<- Hr']].
  apply in_map. apply filter_In in Hr'. tauto.
Qed.

Lemma ascending_insert (t : list Row) (r : Row) :
  ascending_ids t -> row_id r = next_rowid t -> ascending_ids (t ++ [r]).
Proof.
  unfold ascending_ids. intros Ht Hid. rewrite map_app. cbn [map].
  apply ascending_snoc; [exact Ht|].
  intros y Hy. apply in_map_iff in Hy. destruct Hy as [r' [<- Hr']].
  apply next_rowid_fresh in Hr'. lia.
Qed.

Lemma sweep_keeps_order (items : list CachedFile) :
  forall s, scope_open s -> ascending_ids (visible s) ->
  ascending_ids (visible (snd (for_each items Cache.delete s))).
Proof.
  induction items as [|item items IH]; intros s Hs Ht; [exact Ht|].
  cbn [for_each]. unfold bind.
  destruct (delete_visible s item Hs) as [Hv [Hs' _]].
  assert (Ht' : ascending_ids (visible (snd (Cache.delete item s))))
    by (rewrite Hv; now apply ascending_filter).
  destruct (Cache.delete item s) as [[[]|e] s']; cbn [snd] in *; auto.
Qed.

Lemma perform_keeps_order (c : call) (s : State) :
  scope_open s -> ascending_ids (visible s) ->
  ascending_ids (visible (snd (perform c s))).
Proof.
  intros Hs Ht. pose proof Hs as [cn [k [Hc Hk]]].
  destruct c as [u|item|i|u|item| |]; cbn [perform]; unfold bind, ret.
  - destruct (has_url u (visible s)) eqn:Hurl.
    + destruct (add_duplicate s u Hs Hurl) as [s1 [E [Hv _]]].
      rewrite E. cbn [snd]. now rewrite Hv.
    + destruct (add_new s u Hs Hurl) as [s1 [E [Hv _]]].
      rewrite E. cbn [snd]. rewrite Hv. now apply ascending_insert.
  - now rewrite (update_eq _ _ _ _ Hc Hk).
  - rewrite by_id_eq. now destruct (select_by_id i (visible s)).
  - rewrite by_url_eq. now destruct (select_by_url u (visible s)).
  - destruct (delete_visible s item Hs) as [Hv _]. rewrite Hv.
    now apply ascending_filter.
  - rewrite (clean_eq _ _ _ Hc Hk). destruct (_expire_days s); [|exact Ht].
    now apply sweep_keeps_order.
  - now rewrite list_eq.
Qed.

Lemma script_keeps_order (calls : list call) :
  forall s, scope_open s -> ascending_ids (visible s) ->
  ascending_ids (visible (snd (script calls s))).
Proof.
  unfold script. induction calls as [|c calls IH]; intros s Hs Ht; [exact Ht|].
  cbn [for_each]. unfold bind.
  pose proof (perform_keeps_scope c s Hs) as Hs'.
  pose proof (perform_keeps_order c s Hs Ht) as Ht'.
  destruct (perform c s) as [[[]|e] s']; cbn [snd] in *; auto.
Qed.

(** X17.  The rows stay in the order of their ids: when the database is in
    increasing id order, it still is after a scope with any calls in it,
    and [list()] then returns the entries in increasing id order. *)
Theorem list_is_in_id_order (s : State) (calls : list call) :
  ascending_ids (database s) ->
  let s1 := snd (Cache.with_cache (script calls) s) in
  ascending_ids (database s1)
  /\ exists entries,
       Cache.list s1 = (Return entries, s1)
       /\ ascending (map CachedFile.id entries).
Proof.
  intros Ht. cbv zeta.
  pose proof (script_keeps_order calls (in_scope s) (enter_open s) Ht) as H.
  rewrite with_cache_eq by (apply script_keeps_scope, enter_open).
  cbn [snd]. cbv zeta.
  set (s2 := snd (script calls (in_scope s))) in *.
  split; [exact H|].
  eexists. split; [apply list_eq|].
  rewrite map_map. cbn [CachedFile.id CachedFile.__init__]. exact H.
Qed.

Lemma list_is_in_id_order_witness :
  let calls := [Add url_d; Delete (CachedFile.__init__ (cwd committed_on_disk) row_b);
                Add url_b] in
  ascending_ids (database committed_on_disk)
  /\ map row_id (database (snd (Cache.with_cache (script calls) committed_on_disk)))
     = [1; 3; 4; 5]
  /\ exists entries,
       Cache.list (snd (Cache.with_cache (script calls) committed_on_disk))
         = (Return entries, snd (Cache.with_cache (script calls) committed_on_disk))
       /\ ascending (map CachedFile.id entries).
Proof.
  cbv zeta.
  assert (Ht : ascending_ids (database committed_on_disk)).
  { vm_compute. repeat split; intros y Hy; repeat destruct Hy as [<-|Hy];
      try reflexivity; contradiction. }
  split; [exact Ht|]. split; [vm_compute; reflexivity|].
  exact (proj2 (list_is_in_id_order committed_on_disk _ Ht)).
Defined.

(* ================================================================== *)
(** ** [list()] after several adds *)






